(** * meTal: the import hook, the decorator stack and the scope manager

    A shallow embedding of [meTal.py].  Python objects are symbolic values,
    module objects live in a heap of namespaces (so that the cached module
    and the decorated copy are two different objects), and the process-wide
    list [_meTalizers] is a field of the interpreter state.  Calling a Python
    object and the original [__import__] belong to the runtime, not to
    [meTal.py]; they are the two operations of the class [Runtime].

    What the model fixes: identifiers are ASCII, so [str.lower] maps [A-Z]
    to [a-z]; [dir] of a module is the sorted list of the names of its
    [__dict__]; a call returns a value or raises and leaves the heap and
    [_meTalizers] alone; the original import may change the heap but not
    [_meTalizers]. *)

From stdpp Require Import gmap strings list fin_maps sorting.
From Stdlib Require Import Ascii String ZArith.

Local Open Scope string_scope.
Set Warnings "-register-all".

(** ** Values and exceptions *)

(** The Python objects the hook can meet.  A function (or class) object is
    known by the name of its [def] and the values its closure captured. *)
Inductive value : Type :=
| VNone
| VInt (n : Z)
| VStr (s : string)
| VList (xs : list value)
| VFunc (name : string) (closure : list value).

Inductive exception : Type :=
| ImportError (name : string)
| AttributeError (name : string)
| KeyError (key : string)
| IndexError
| TypeError
| SystemError
| Raised (payload : value).

Abbreviation result A := (sum exception A) (only parsing).

(** A module's [__dict__]. *)
Abbreviation dict := (gmap string value).

(** Keyword arguments, in call order. *)
Abbreviation kwargs := (list (string * value)).

(** Module objects are referred to by their address. *)
Abbreviation loc := positive.
Abbreviation heap_t := (gmap loc dict).

(** One entry of [_meTalizers]: the tuple [(decorate, dargs, dkwargs)]. *)
Definition meTalizer : Type := value * list value * kwargs.

(** What [builtins.__import__] is bound to. *)
Inductive import_fn : Type :=
| OriginalImport
| MeTalizingImport.

Record state : Type := State {
  heap : heap_t;
  _meTalizers : list meTalizer;
  builtins_import : import_fn
}.

Definition set_heap (f : heap_t → heap_t) (st : state) : state :=
  State (f (heap st)) (_meTalizers st) (builtins_import st).

Definition set_meTalizers (f : list meTalizer → list meTalizer) (st : state) : state :=
  State (heap st) (f (_meTalizers st)) (builtins_import st).

Definition set_builtins_import (i : import_fn) (st : state) : state :=
  State (heap st) (_meTalizers st) i.

(** ** [str.lower] on identifiers *)

Definition lower_ascii (c : ascii) : ascii :=
  let n := N_of_ascii c in
  if ((65 <=? n) && (n <=? 90))%N then ascii_of_N (n + 32) else c.

Fixpoint lower (s : string) : string :=
  match s with
  | EmptyString => EmptyString
  | String c r => String (lower_ascii c) (lower r)
  end.

(** ** The interpreter monad: state is kept when an exception is raised *)

Definition M (A : Type) : Type := state → result A * state.

Global Instance M_ret : MRet M := λ A x st, (inr x, st).
Global Instance M_bind : MBind M := λ A B f m st,
  match m st with
  | (inr x, st') => f x st'
  | (inl e, st') => (inl e, st')
  end.
Global Instance M_throw : MThrow exception M := λ A e st, (inl e, st).

Definition lift {A} (r : result A) : M A := λ st, (r, st).

(** The same bind on plain results, for code that touches no state. *)
Global Instance result_ret : MRet (sum exception) := λ A x, inr x.
Global Instance result_bind : MBind (sum exception) := λ A B f r,
  match r with
  | inr x => f x
  | inl e => inl e
  end.

Definition get_meTalizers : M (list meTalizer) := λ st, (inr (_meTalizers st), st).

(** ** The runtime *)

Class Runtime := {
  (** calling [f] with positional and keyword arguments *)
  call : value → list value → kwargs → result value;
  (** the original [__import__], saved as [_builtin_import] on line 230; it
      may load modules into the heap and returns the module object *)
  _builtin_import : list value → kwargs → heap_t → result loc * heap_t
}.

(** ** Object primitives *)

Definition deref (m : loc) : M dict := λ st,
  match heap st !! m with
  | Some d => (inr d, st)
  | None => (inl SystemError, st)
  end.

Definition store (m : loc) (d : dict) : M () := λ st,
  (inr (), set_heap <[m := d]> st).

(** [hasattr(module, name)] *)
Definition hasattr (m : loc) (name : string) : M bool :=
  d ← deref m; mret (bool_decide (is_Some (d !! name))).

(** [dir(module)]: the names of the namespace, sorted. *)
Definition dir_dict (d : dict) : list string :=
  merge_sort String.le (elements (dom d)).

Definition dir (m : loc) : M (list string) :=
  d ← deref m; mret (dir_dict d).

(** [getattr(module, name)] for a name held in a string: the lookup in the
    module's namespace (the attributes of the module type itself, such as
    [__class__], are left out). *)
Definition getattr_str (m : loc) (name : string) : M value :=
  d ← deref m;
  match d !! name with
  | Some v => mret v
  | None => mthrow (AttributeError name)
  end.

(** [getattr(module, name)] for any object [name]. *)
Definition getattr (m : loc) (name : value) : M value :=
  match name with
  | VStr s => getattr_str m s
  | _ => mthrow TypeError
  end.

(** [setattr(module, name, v)] *)
Definition setattr_str (m : loc) (name : string) (v : value) : M () :=
  d ← deref m; store m (<[name := v]> d).

Definition setattr (m : loc) (name : value) (v : value) : M () :=
  match name with
  | VStr s => setattr_str m s v
  | _ => mthrow TypeError
  end.

(** [module.__dict__.pop(name)] *)
Definition dict_pop (m : loc) (name : string) : M value :=
  d ← deref m;
  match d !! name with
  | Some v => store m (delete name d);; mret v
  | None => mthrow (KeyError name)
  end.

(** What a [for] loop iterates over, for the values above: the elements of
    a list, the characters of a string; [None], a number and a function
    object raise [TypeError].  (Tuples, dicts, sets and generators, which
    Python iterates as well, are not among the values.) *)
Definition py_iter (v : value) : result (list value) :=
  match v with
  | VList xs => inr xs
  | VStr s => inr ((λ c, VStr (String c EmptyString)) <$> list_ascii_of_string s)
  | _ => inl TypeError
  end.

(** [types.ModuleType(name)]: a new module object whose namespace holds
    [__name__] and [__doc__]. *)
Definition ModuleType (name : value) : M loc := λ st,
  match name with
  | VStr _ =>
      let m := fresh (dom (heap st)) in
      (inr m, set_heap <[m := {[ "__name__" := name; "__doc__" := VNone ]}]> st)
  | _ => (inl TypeError, st)
  end.

(** [target.__dict__.update(source.__dict__)] *)
Definition dict_update (target source : loc) : M () :=
  s ← deref source; t ← deref target; store target (s ∪ t).

(** ** meTal.py, lines 231-255 *)

Section hook.
Context `{Runtime}.

(** Lines 238-240. *)
Fixpoint rename_loop (module : loc) (meTalized_names : list (string * string)) : M () :=
  match meTalized_names with
  | [] => mret ()
  | (name, normed) :: rest =>
      (if decide (name ≠ normed)
       then v ← dict_pop module name; setattr_str module normed v
       else mret ());;
      rename_loop module rest
  end.

(** Lines 233-240. *)
Definition meTalize_names (module : loc) : M () :=
  b ← hasattr module "__meTalized__";
  if negb b then
    names ← dir module;
    let meTalized_names := (λ name, (name, lower name)) <$> names in
    setattr_str module "__meTalized__"
      (VList ((λ p, VStr p.2) <$> filter (λ p, p.1 ≠ p.2) meTalized_names));;
    rename_loop module meTalized_names
  else mret ().

(** Lines 250-253: one entry of the stack applied to [defn]. *)
Definition decorate_one (e : meTalizer) (defn : value) : result value :=
  let '(decorate, dargs, dkwargs) := e in
  if bool_decide (dargs ≠ []) || bool_decide (dkwargs ≠ [])
  then g ← call decorate dargs dkwargs; call g [defn] []
  else call decorate [defn] [].

(** Lines 249-253: the loop over an already reversed stack. *)
Fixpoint decorate_loop (es : list meTalizer) (defn : value) : result value :=
  match es with
  | [] => inr defn
  | e :: rest => defn' ← decorate_one e defn; decorate_loop rest defn'
  end.

(** Lines 247-254. *)
Fixpoint decorate_names (meTalized : loc) (names : list value) : M () :=
  match names with
  | [] => mret ()
  | name :: rest =>
      defn ← getattr meTalized name;
      stack ← get_meTalizers;
      defn' ← lift (decorate_loop (reverse stack) defn);
      setattr meTalized name defn';;
      decorate_names meTalized rest
  end.

(** Lines 233-255: everything after the call of the original import. *)
Definition meTalize (module : loc) : M loc :=
  meTalize_names module;;
  stack ← get_meTalizers;
  if bool_decide (stack = []) then mret module
  else
    nm ← getattr_str module "__name__";
    meTalized ← ModuleType nm;
    dict_update meTalized module;;
    lst ← getattr_str module "__meTalized__";
    names ← lift (py_iter lst);
    decorate_names meTalized names;;
    mret meTalized.

(** Line 232. *)
Definition builtin_import (args : list value) (kw : kwargs) : M loc := λ st,
  let '(r, h) := _builtin_import args kw (heap st) in
  (r, set_heap (λ _, h) st).

Definition _meTalizing_import (args : list value) (kw : kwargs) : M loc :=
  module ← builtin_import args kw; meTalize module.

(** ** Lines 259-270: the scope manager *)

(** [try: body finally: fin] *)
Definition try_finally {A} (body : M A) (fin : M ()) : M A := λ st,
  let '(r, st1) := body st in
  match fin st1 with
  | (inr _, st2) => (r, st2)
  | (inl e, st2) => (inl e, st2)
  end.

(** [_meTalizers.append(x)] *)
Definition meTalizers_append (x : meTalizer) : M () := λ st,
  (inr (), set_meTalizers (λ l, (l ++ [x])%list) st).

(** [_meTalizers.pop()] *)
Definition meTalizers_pop : M () := λ st,
  match _meTalizers st with
  | [] => (inl IndexError, st)
  | _ :: _ => (inr (), set_meTalizers (removelast (A:=meTalizer)) st)
  end.

(** [with meTalmanager(decorate, dargs, dkwargs): body].  The generator
    runs up to its [yield] on entry; the body of the [with] statement runs
    at the [yield]; the [finally] clause runs on exit, however the body
    ended. *)
Definition meTalmanager {A} (decorate : value) (dargs : list value)
    (dkwargs : kwargs) (body : M A) : M A :=
  meTalizers_append (decorate, dargs, dkwargs);;
  try_finally body meTalizers_pop.

(** [with meTal(decorator, args..., kwargs...): body], through
    [MeTal.__call__]. *)
Definition MeTal_call {A} (decorator : value) (args : list value)
    (kw : kwargs) (body : M A) : M A :=
  meTalmanager decorator args kw body.

(** ** The module's top level *)

(** An [import name] statement: it calls whatever [builtins.__import__]
    is bound to, with the module's name (the globals, locals, fromlist and
    level arguments are left out). *)
Definition import_stmt (name : string) : M loc := λ st,
  match builtins_import st with
  | OriginalImport => builtin_import [VStr name] [] st
  | MeTalizingImport => _meTalizing_import [VStr name] [] st
  end.

(** Line 228: [_meTalizers = []] *)
Definition new_meTalizers : M () := λ st,
  (inr (), set_meTalizers (λ _, []) st).

(** Line 257: [builtins.__import__ = _meTalizing_import] *)
Definition install_hook : M () := λ st,
  (inr (), set_builtins_import MeTalizingImport st).

(** Lines 222-272, in order.  The [def] and [class] statements and the
    replacement of [sys.modules[__name__]] do not touch the state kept
    here. *)
Definition meTal_py : M () :=
  import_stmt "sys";;
  import_stmt "types";;
  import_stmt "__builtin__";;
  import_stmt "contextlib";;
  new_meTalizers;;
  install_hook.
End hook.

(** ** What the loops compute, as functions on namespaces *)

(** A name is meTalized when [name != name.lower()]. *)
Definition cased (name : string) : Prop := name ≠ lower name.

Global Instance cased_dec name : Decision (cased name).
Proof. unfold cased. apply _. Defined.

(** The renaming loop on a namespace; a name that is not bound is skipped
    (the loop itself would raise [KeyError]). *)
Fixpoint rename_dict (names : list string) (d : dict) : dict :=
  match names with
  | [] => d
  | name :: rest =>
      rename_dict rest
        (if decide (name ≠ lower name)
         then match d !! name with
              | Some v => <[lower name := v]> (delete name d)
              | None => d
              end
         else d)
  end.

(** One step of the loop, for one name. *)
Definition rename_step (name : string) (d : dict) : dict :=
  rename_dict [name] d.

(** The list stored in [__meTalized__]. *)
Definition meTalized_list (d : dict) : list string :=
  lower <$> filter cased (dir_dict d).

(** Lines 233-240 on a namespace. *)
Definition meTalized_dict (d : dict) : dict :=
  if decide (is_Some (d !! "__meTalized__")) then d
  else rename_dict (dir_dict d)
         (<["__meTalized__" := VList (VStr <$> meTalized_list d)]> d).

(** Lines 245-246: the namespace of the copy. *)
Definition copy_dict (nm : value) (d : dict) : dict :=
  d ∪ {[ "__name__" := nm; "__doc__" := VNone ]}.

Section pure.
Context `{Runtime}.

(** Lines 247-254 on the copy's namespace: how the loop ends, and the
    namespace it leaves. *)
Fixpoint decorate_dict (stack : list meTalizer) (names : list value)
    (d : dict) : result () * dict :=
  match names with
  | [] => (inr (), d)
  | VStr s :: rest =>
      match d !! s with
      | Some defn =>
          match decorate_loop (reverse stack) defn with
          | inr defn' => decorate_dict stack rest (<[s := defn']> d)
          | inl e => (inl e, d)
          end
      | None => (inl (AttributeError s), d)
      end
  | _ :: _ => (inl TypeError, d)
  end.

(** Lines 242-255 on the renamed namespace [d1] of the cached module [m]:
    what is returned, and the namespace of the copy [m'] once it has been
    created. *)
Definition decorated_copy (stack : list meTalizer) (m m' : loc) (d1 : dict)
    : result loc * option dict :=
  if bool_decide (stack = []) then (inr m, None)
  else match d1 !! "__name__" with
       | None => (inl (AttributeError "__name__"), None)
       | Some (VStr nm) =>
           let c := copy_dict (VStr nm) d1 in
           match d1 !! "__meTalized__" with
           | None => (inl (AttributeError "__meTalized__"), Some c)
           | Some lst =>
               match py_iter lst with
               | inl e => (inl e, Some c)
               | inr names =>
                   let '(r, c') := decorate_dict stack names c in
                   (match r with inr _ => inr m' | inl e => inl e end, Some c')
               end
           end
       | Some _ => (inl TypeError, None)
       end.

(** The heap the hook leaves: the cached module renamed, and the copy. *)
Definition heap_after (m m' : loc) (d1 : dict) (copy : option dict)
    (h : heap_t) : heap_t :=
  match copy with
  | None => <[m := d1]> h
  | Some c => <[m' := c]> (<[m := d1]> h)
  end.

(** The whole stack applied [k] times in a row. *)
Fixpoint repeat_decorate (stack : list meTalizer) (k : nat) (defn : value)
    : result value :=
  match k with
  | O => inr defn
  | S k' => defn' ← decorate_loop (reverse stack) defn;
            repeat_decorate stack k' defn'
  end.

(** Stacked decorator syntax: [@d1 @d2 ... @dn def f] binds [f] to
    [d1(d2(...dn(f)...))], the decorator written first being applied
    last. *)
Fixpoint stacked (ds : list meTalizer) (f : value) : result value :=
  match ds with
  | [] => inr f
  | d :: rest => g ← stacked rest f; decorate_one d g
  end.


(** Import statements one after the other with the original import,
    stopping at the first that raises: how the run ends, with the
    exception of that import, and the heap it leaves. *)
Fixpoint imports_in_order (names : list string) (h : heap_t)
    : result () * heap_t :=
  match names with
  | [] => (inr (), h)
  | name :: rest =>
      match _builtin_import [VStr name] [] h with
      | (inr _, h') => imports_in_order rest h'
      | (inl e, h') => (inl e, h')
      end
  end.
End pure.

(** [None], a number or a function object: of the values above, those a
    [for] loop cannot iterate over. *)
Definition not_iterable (v : value) : Prop :=
  match v with
  | VNone | VInt _ | VFunc _ _ => True
  | VStr _ | VList _ => False
  end.

(** [None], a number, a list or a function object: of the values above,
    those [getattr] does not take for an attribute name. *)
Definition not_a_name (v : value) : Prop :=
  match v with
  | VNone | VInt _ | VList _ | VFunc _ _ => True
  | VStr _ => False
  end.

(** How many times a name is listed. *)
Definition occurrences (k : string) (l : list string) : nat :=
  List.length (filter (λ x, x = k) l).

(** A [__meTalized__] attribute that lists names bound in the namespace:
    what the hook itself writes, and what [meTal.py] gives to its own
    module on line 227. *)
Definition well_listed (d : dict) : Prop :=
  ∀ v, d !! "__meTalized__" = Some v →
    ∃ l, v = VList (VStr <$> l) ∧ ∀ k, k ∈ l → is_Some (d !! k).

(** ** A concrete runtime: the modules and decorators of the examples *)

(** [simple.py] of the documentation. *)
Definition simple_py : dict :=
  {[ "__name__" := VStr "simple"; "__doc__" := VNone;
     "HellO" := VFunc "HellO" [] ]}.

(** A module in which three names fold to [hello]. *)
Definition clash_py : dict :=
  {[ "__name__" := VStr "clash"; "__doc__" := VNone;
     "HELLO" := VFunc "HELLO" []; "HellO" := VFunc "HellO" [];
     "hello" := VFunc "hello" [] ]}.

(** A module that defines both [HellO] and [hello]. *)
Definition greet_py : dict :=
  {[ "__name__" := VStr "greet"; "__doc__" := VNone;
     "HellO" := VFunc "HellO" []; "hello" := VFunc "hello" [] ]}.

(** A module that names a class and a lowercase function. *)
Definition shapes_py : dict :=
  {[ "__name__" := VStr "shapes"; "__doc__" := VNone;
     "Circle" := VFunc "Circle" []; "area" := VFunc "area" [] ]}.

(** Where the example interpreter keeps the modules it can find.  It has a
    module [__builtin__]: it is a Python 2. *)
Definition example_modules (name : string) : option loc :=
  if decide (name = "simple") then Some 1%positive
  else if decide (name = "clash") then Some 2%positive
  else if decide (name = "shapes") then Some 3%positive
  else if decide (name = "sys") then Some 4%positive
  else if decide (name = "types") then Some 5%positive
  else if decide (name = "contextlib") then Some 6%positive
  else if decide (name = "greet") then Some 7%positive
  else if decide (name = "__builtin__") then Some 8%positive
  else None.

(** The original import, for modules that are already loaded: it serves the
    module object from the cache and leaves the heap alone. *)
Definition example_import (args : list value) (kw : kwargs) (h : heap_t)
    : result loc * heap_t :=
  match args with
  | [VStr name] =>
      match example_modules name with
      | Some m => (inr m, h)
      | None => (inl (ImportError name), h)
      end
  | _ => (inl TypeError, h)
  end.

(** The cache once [simple], [clash], [shapes] and [greet] are loaded. *)
Definition example_heap : heap_t :=
  {[ 1%positive := simple_py; 2%positive := clash_py; 3%positive := shapes_py;
     7%positive := greet_py ]}.

(** [decorator1] and [decorator2] of [example2.py] return a wrapper closed
    over the function; [repeat(n)] is a decorator factory; [broken] raises;
    anything else is not callable. *)
Definition example_call (f : value) (args : list value) (kw : kwargs)
    : result value :=
  match f, args, kw with
  | VFunc name [], [g], [] =>
      if decide (name = "decorator1") then inr (VFunc "decorator1.wrapper" [g])
      else if decide (name = "decorator2") then inr (VFunc "decorator2.wrapper" [g])
      else if decide (name = "repeat")
           then match g with
                | VInt n => inr (VFunc "repeat.decorator" [VInt n])
                | _ => inl TypeError
                end
      else if decide (name = "broken") then inl (Raised (VStr "boom"))
      else inl TypeError
  | VFunc name [n], [g], [] =>
      if decide (name = "repeat.decorator") then inr (VFunc "repeat.wrapper" [n; g])
      else inl TypeError
  | _, _, _ => inl TypeError
  end.

Definition example_runtime : Runtime :=
  {| call := example_call; _builtin_import := example_import |}.

(** The same interpreter as a Python 3: [__builtin__] is not to be found. *)
Definition python3_import (args : list value) (kw : kwargs) (h : heap_t)
    : result loc * heap_t :=
  match args with
  | [VStr name] =>
      if decide (name = "__builtin__") then (inl (ImportError name), h)
      else example_import args kw h
  | _ => example_import args kw h
  end.

Definition python3_runtime : Runtime :=
  {| call := example_call; _builtin_import := python3_import |}.

Definition decorator1 : meTalizer := (VFunc "decorator1" [], [], []).
Definition decorator2 : meTalizer := (VFunc "decorator2" [], [], []).
Definition broken : meTalizer := (VFunc "broken" [], [], []).

(** The attribute [k] of the module an import returned. *)
Definition imported_attr (r : result loc * state) (k : string) : option value :=
  match r.1 with
  | inr m => d ← heap r.2 !! m; d !! k
  | inl _ => None
  end.



(** ** The example scripts *)

Section scripts.
Context `{Runtime}.

(** [import simple] followed by [simple.hello('Guido')]: the statements
    both scripts repeat. *)
Definition import_simple : M loc := import_stmt "simple".

Definition call_hello (simple : loc) : M value :=
  hello ← getattr_str simple "hello";
  lift (call hello [VStr "Guido"] []).

(** [examples/example.py].  Its first statement, [import meTal], loads the
    module: it runs the top level of [meTal.py].  The script's own [def]
    is the parameter [decorator].  The result is what the two calls of
    lines 16 and 20 returned. *)
Definition example_py (decorator : value) : M (value * value) :=
  meTal_py;;
  simple ← MeTal_call decorator [] [] import_simple;
  r1 ← call_hello simple;
  simple ← import_simple;
  r2 ← call_hello simple;
  mret (r1, r2).

(** [examples/example2.py]: three scopes, the calls inside them. *)
Definition example2_py (decorator1 decorator2 : value)
    : M (value * value * value) :=
  meTal_py;;
  r1 ← MeTal_call decorator1 [] [] (simple ← import_simple; call_hello simple);
  r2 ← MeTal_call decorator2 [] [] (simple ← import_simple; call_hello simple);
  r3 ← MeTal_call decorator1 [] []
         (MeTal_call decorator2 [] [] (simple ← import_simple; call_hello simple));
  mret (r1, r2, r3).
End scripts.

(** ** More modules and callables for the examples *)

(** A module whose constant [__NAME__] folds to [__name__]. *)
Definition odd_py : dict :=
  {[ "__name__" := VStr "odd"; "__doc__" := VNone; "__NAME__" := VInt 3 ]}.

(** A module that sets [__meTalized__ = []] itself, as [meTal.py] does on
    line 227, and defines a cased name. *)
Definition optout_py : dict :=
  {[ "__name__" := VStr "optout"; "__doc__" := VNone;
     "__meTalized__" := VList []; "HellO" := VFunc "HellO" [] ]}.

(** A module with lowercase names only. *)
Definition plain_py : dict :=
  {[ "__name__" := VStr "plain"; "__doc__" := VNone;
     "hello" := VFunc "hello" [] ]}.

(** A module whose [__meTalized__] is a number. *)
Definition badlist_py : dict :=
  {[ "__name__" := VStr "badlist"; "__doc__" := VNone;
     "__meTalized__" := VInt 7 ]}.

Definition extra_import (args : list value) (kw : kwargs) (h : heap_t)
    : result loc * heap_t :=
  match args with
  | [VStr name] =>
      if decide (name = "odd") then (inr 11%positive, h)
      else if decide (name = "optout") then (inr 12%positive, h)
      else if decide (name = "plain") then (inr 13%positive, h)
      else if decide (name = "badlist") then (inr 14%positive, h)
      else example_import args kw h
  | _ => example_import args kw h
  end.

Definition extra_heap : heap_t :=
  {[ 1%positive := simple_py; 11%positive := odd_py; 12%positive := optout_py;
     13%positive := plain_py; 14%positive := badlist_py ]}.

(** Calling a function of the examples: [HellO] returns [None]; a wrapper
    made by [decorator1] or [decorator2] calls the function it closed
    over; everything else is called as by [example_call]. *)
Fixpoint call_wrapped (depth : nat) (f : value) (args : list value)
    (kw : kwargs) : result value :=
  match f with
  | VFunc name closure =>
      if decide (name = "HellO") then inr VNone
      else if decide (name = "decorator1.wrapper"
                     ∨ name = "decorator2.wrapper")
      then match depth, closure with
           | S depth', [g] => call_wrapped depth' g args kw
           | _, _ => inl TypeError
           end
      else example_call f args kw
  | _ => example_call f args kw
  end.

Definition extra_call (f : value) (args : list value) (kw : kwargs)
    : result value :=
  call_wrapped 8 f args kw.

Definition extra_runtime : Runtime :=
  {| call := extra_call; _builtin_import := extra_import |}.

(** A body that empties the stack, and one that leaves one more entry. *)
Definition clear_stack : M () := λ st, (inr (), set_meTalizers (λ _, []) st).
Definition push_broken : M () := λ st,
  (inr (), set_meTalizers (λ l, (l ++ [broken])%list) st).

(** * Lemmas *)

(** ** Runs of the primitives *)

Lemma lower_ascii_idemp c : lower_ascii (lower_ascii c) = lower_ascii c.
Proof. destruct c as [[] [] [] [] [] [] [] []]; reflexivity. Qed.

Lemma lower_idemp s : lower (lower s) = lower s.
Proof. induction s as [|c s IH]; simpl; [done|]. by rewrite lower_ascii_idemp, IH. Qed.

Lemma lower_not_cased s : ¬ cased (lower s).
Proof. intros Hc. apply Hc. by rewrite lower_idemp. Qed.

Lemma cased_ne_lower n k : cased n → n ≠ lower k.
Proof. intros Hn ->. by apply (lower_not_cased k). Qed.

Lemma meTalized_key_cased : cased "__meTalized__".
Proof. by vm_compute. Qed.

Lemma set_heap_id m d st : heap st !! m = Some d → set_heap <[m := d]> st = st.
Proof. destruct st as [h s i]; unfold set_heap; simpl. intros E. by rewrite insert_id. Qed.

Lemma meTalizers_set_heap f st : _meTalizers (set_heap f st) = _meTalizers st.
Proof. done. Qed.

Lemma set_heap_set_heap f g st : set_heap f (set_heap g st) = set_heap (f ∘ g) st.
Proof. done. Qed.

Lemma bind_run {A B} (m : M A) (f : A → M B) st x st' :
  m st = (inr x, st') → (m ≫= f) st = f x st'.
Proof. unfold mbind, M_bind. by intros ->. Qed.

Lemma bind_fail {A B} (m : M A) (f : A → M B) st e st' :
  m st = (inl e, st') → (m ≫= f) st = (inl e, st').
Proof. unfold mbind, M_bind. by intros ->. Qed.

Lemma deref_run m d st : heap st !! m = Some d → deref m st = (inr d, st).
Proof. unfold deref. by intros ->. Qed.

(** Unfolds the monad's operations and runs the dereferences whose heap
    cell is known. *)
Ltac unfold_M :=
  unfold mbind, M_bind, mret, M_ret, mthrow, M_throw, lift, get_meTalizers, store.

Ltac run_deref E := unfold_M; rewrite ?(deref_run _ _ _ E).

Lemma hasattr_run m d name st :
  heap st !! m = Some d →
  hasattr m name st = (inr (bool_decide (is_Some (d !! name))), st).
Proof. intros E. unfold hasattr. by run_deref E. Qed.

Lemma dir_run m d st : heap st !! m = Some d → dir m st = (inr (dir_dict d), st).
Proof. intros E. unfold dir. by run_deref E. Qed.

Lemma getattr_str_run m d name v st :
  heap st !! m = Some d → d !! name = Some v →
  getattr_str m name st = (inr v, st).
Proof. intros E Ev. unfold getattr_str. run_deref E. by rewrite Ev. Qed.

Lemma getattr_str_fail m d name st :
  heap st !! m = Some d → d !! name = None →
  getattr_str m name st = (inl (AttributeError name), st).
Proof. intros E Ev. unfold getattr_str. run_deref E. by rewrite Ev. Qed.

Lemma setattr_str_run m d name v st :
  heap st !! m = Some d →
  setattr_str m name v st = (inr (), set_heap <[m := <[name := v]> d]> st).
Proof. intros E. unfold setattr_str. by run_deref E. Qed.

Lemma dict_pop_run m d name v st :
  heap st !! m = Some d → d !! name = Some v →
  dict_pop m name st = (inr v, set_heap <[m := delete name d]> st).
Proof. intros E Ev. unfold dict_pop. run_deref E. by rewrite Ev. Qed.

Lemma heap_set_heap_insert m d st : heap (set_heap <[m := d]> st) !! m = Some d.
Proof. simpl. apply lookup_insert_eq. Qed.

Lemma set_heap_insert_twice m d d' st :
  set_heap <[m := d']> (set_heap <[m := d]> st) = set_heap <[m := d']> st.
Proof. unfold set_heap; simpl. by rewrite insert_insert_eq. Qed.

(** ** The renaming pass *)

Lemma rename_loop_run names : ∀ m d st,
  heap st !! m = Some d →
  NoDup names →
  (∀ n, n ∈ names → cased n → is_Some (d !! n)) →
  rename_loop m ((λ n, (n, lower n)) <$> names) st
  = (inr (), set_heap <[m := rename_dict names d]> st).
Proof.
  induction names as [|a names IH]; intros m d st E Hnd Hin.
  - simpl. unfold_M. by rewrite set_heap_id.
  - apply NoDup_cons in Hnd as [Ha Hnd].
    rewrite fmap_cons. cbn [rename_loop rename_dict].
    destruct (decide (a ≠ lower a)) as [Hc|Hc].
    + destruct (Hin a) as [v Ev]; [left | done |].
      rewrite Ev.
      erewrite bind_run; last first.
      { erewrite bind_run; [|by apply dict_pop_run].
        apply setattr_str_run, heap_set_heap_insert. }
      rewrite set_heap_insert_twice.
      rewrite (IH m (<[lower a := v]> (delete a d))).
      * by rewrite set_heap_insert_twice.
      * apply heap_set_heap_insert.
      * done.
      * intros n Hn Hcn.
        rewrite lookup_insert_ne by (symmetry; by apply cased_ne_lower).
        rewrite lookup_delete_ne by (intros ->; done).
        apply Hin; [by right | done].
    + erewrite bind_run; [|reflexivity].
      apply (IH m d st E Hnd).
      intros n Hn Hcn. apply Hin; [by right | done].
Qed.


Lemma rename_dict_cons name rest d :
  rename_dict (name :: rest) d = rename_dict rest (rename_step name d).
Proof. done. Qed.

Lemma rename_step_frame name d k :
  k ≠ name → k ≠ lower name → rename_step name d !! k = d !! k.
Proof.
  intros Hk Hl. unfold rename_step; simpl.
  destruct (decide (name ≠ lower name)); [|done].
  destruct (d !! name) eqn:E; [|done].
  by rewrite lookup_insert_ne, lookup_delete_ne.
Qed.

Lemma rename_step_not_cased name d : ¬ cased name → rename_step name d = d.
Proof. intros Hc. unfold rename_step; simpl. by destruct (decide (name ≠ lower name)). Qed.

Lemma rename_step_cased name d v :
  cased name → d !! name = Some v →
  rename_step name d = <[lower name := v]> (delete name d).
Proof.
  intros Hc E. unfold rename_step; simpl.
  destruct (decide (name ≠ lower name)); [|done]. by rewrite E.
Qed.



(** A name no visited cased name equals or folds to keeps its binding. *)
Lemma rename_dict_frame names : ∀ d k,
  (∀ n, n ∈ names → cased n → k ≠ n ∧ k ≠ lower n) →
  rename_dict names d !! k = d !! k.
Proof.
  induction names as [|a names IH]; intros d k Hk; [done|].
  rewrite rename_dict_cons, IH.
  - destruct (decide (cased a)) as [Hc|Hc].
    + destruct (Hk a) as [??]; [left | done |]. by apply rename_step_frame.
    + by rewrite rename_step_not_cased.
  - intros n Hn Hc. apply Hk; [by right | done].
Qed.

(** A lowercase name that is bound stays bound. *)
Lemma rename_dict_keeps_lower names : ∀ d k,
  ¬ cased k → is_Some (d !! k) → is_Some (rename_dict names d !! k).
Proof.
  induction names as [|a names IH]; intros d k Hk Hs; [done|].
  rewrite rename_dict_cons. apply IH; [done|].
  destruct (decide (cased a)) as [Hc|Hc]; [|by rewrite rename_step_not_cased].
  destruct (d !! a) as [v|] eqn:Ea.
  - rewrite (rename_step_cased _ _ v) by done.
    destruct (decide (lower a = k)) as [<-|Hne].
    + rewrite lookup_insert_eq. eauto.
    + rewrite lookup_insert_ne by done.
      rewrite lookup_delete_ne; [done|]. intros ->. done.
  - unfold rename_step; simpl. destruct (decide _); by rewrite ?Ea.
Qed.


Lemma elem_of_dir_dict (d : dict) n : n ∈ dir_dict d ↔ is_Some (d !! n).
Proof.
  unfold dir_dict. rewrite merge_sort_Permutation, elem_of_elements.
  apply elem_of_dom.
Qed.

Lemma NoDup_dir_dict (d : dict) : NoDup (dir_dict d).
Proof. unfold dir_dict. rewrite merge_sort_Permutation. apply NoDup_elements. Qed.

Lemma meTalized_names_filter (names : list string) :
  (λ p : string * string, VStr p.2)
    <$> filter (λ p : string * string, p.1 ≠ p.2) ((λ n, (n, lower n)) <$> names)
  = VStr <$> (lower <$> filter cased names).
Proof.
  induction names as [|a names IH]; [done|].
  rewrite fmap_cons, !filter_cons; simpl.
  unfold cased at 1.
  destruct (decide (a ≠ lower a)); [|exact IH].
  rewrite !fmap_cons; simpl. f_equal. exact IH.
Qed.

Lemma meTalized_dict_has d : is_Some (d !! "__meTalized__") → meTalized_dict d = d.
Proof. intros Hs. unfold meTalized_dict. by destruct (decide _). Qed.

Lemma meTalized_dict_fresh d :
  d !! "__meTalized__" = None →
  meTalized_dict d
  = rename_dict (dir_dict d)
      (<["__meTalized__" := VList (VStr <$> meTalized_list d)]> d).
Proof.
  intros Hn. unfold meTalized_dict. destruct (decide _) as [[v Hv]|]; [|done].
  by rewrite Hn in Hv.
Qed.

Lemma dir_dict_not_key d n :
  d !! "__meTalized__" = None → n ∈ dir_dict d → n ≠ "__meTalized__".
Proof.
  intros Hn Hin ->. apply elem_of_dir_dict in Hin as [v Hv]. by rewrite Hn in Hv.
Qed.

(** The list the hook stores survives the renaming loop. *)
Lemma meTalized_dict_list d :
  d !! "__meTalized__" = None →
  meTalized_dict d !! "__meTalized__" = Some (VList (VStr <$> meTalized_list d)).
Proof.
  intros Hn. rewrite meTalized_dict_fresh by done.
  rewrite rename_dict_frame; [apply lookup_insert_eq|].
  intros n Hin Hc. split.
  - symmetry. by eapply dir_dict_not_key.
  - apply cased_ne_lower, meTalized_key_cased.
Qed.

Lemma meTalized_dict_carries d : is_Some (meTalized_dict d !! "__meTalized__").
Proof.
  destruct (d !! "__meTalized__") as [v|] eqn:E.
  - rewrite meTalized_dict_has; rewrite E; eauto.
  - rewrite meTalized_dict_list; eauto.
Qed.

Lemma meTalized_dict_idemp d : meTalized_dict (meTalized_dict d) = meTalized_dict d.
Proof. apply meTalized_dict_has, meTalized_dict_carries. Qed.

Lemma meTalize_names_run m d st :
  heap st !! m = Some d →
  meTalize_names m st = (inr (), set_heap <[m := meTalized_dict d]> st).
Proof.
  intros E. unfold meTalize_names.
  erewrite bind_run; [|by apply hasattr_run].
  destruct (decide (is_Some (d !! "__meTalized__"))) as [Hs|Hs].
  - rewrite bool_decide_eq_true_2 by done. simpl. unfold_M.
    rewrite meTalized_dict_has by done. by rewrite set_heap_id.
  - rewrite bool_decide_eq_false_2 by done. simpl.
    assert (d !! "__meTalized__" = None) as Hn.
    { destruct (d !! "__meTalized__") eqn:E'; [|done]. exfalso. apply Hs. eauto. }
    erewrite bind_run; [|by apply dir_run].
    erewrite bind_run; [|by apply setattr_str_run].
    rewrite meTalized_names_filter.
    erewrite rename_loop_run.
    + rewrite set_heap_insert_twice. by rewrite meTalized_dict_fresh.
    + apply heap_set_heap_insert.
    + apply NoDup_dir_dict.
    + intros n Hin Hc.
      rewrite lookup_insert_ne by (symmetry; by eapply dir_dict_not_key).
      by apply elem_of_dir_dict.
Qed.

(** ** The decoration pass *)

Lemma ModuleType_run nm st :
  ModuleType (VStr nm) st
  = (inr (fresh (dom (heap st))),
     set_heap <[fresh (dom (heap st)) := {[ "__name__" := VStr nm; "__doc__" := VNone ]}]> st).
Proof. done. Qed.

Lemma dict_update_run target source s t st :
  heap st !! source = Some s → heap st !! target = Some t →
  dict_update target source st = (inr (), set_heap <[target := s ∪ t]> st).
Proof.
  intros Es Et. unfold dict_update. unfold_M.
  by rewrite (deref_run _ _ _ Es), (deref_run _ _ _ Et).
Qed.

Lemma fresh_ne (h : heap_t) m d : h !! m = Some d → m ≠ fresh (dom h).
Proof.
  intros E Heq. apply (is_fresh (dom h)). rewrite <- Heq.
  apply elem_of_dom. eauto.
Qed.

Section decoration.
Context `{Runtime}.

Lemma decorate_names_run names : ∀ m' d st,
  heap st !! m' = Some d →
  decorate_names m' names st
  = ((decorate_dict (_meTalizers st) names d).1,
     set_heap <[m' := (decorate_dict (_meTalizers st) names d).2]> st).
Proof.
  induction names as [|name names IH]; intros m' d st E.
  - simpl. unfold_M. by rewrite set_heap_id.
  - cbn [decorate_names decorate_dict].
    destruct name as [|n|s|xs|f cl];
      try (unfold getattr; unfold_M; simpl; by rewrite set_heap_id).
    unfold getattr.
    destruct (d !! s) as [defn|] eqn:Es.
    + erewrite bind_run; [|by eapply getattr_str_run].
      erewrite bind_run; [|reflexivity].
      destruct (decorate_loop (reverse (_meTalizers st)) defn) as [e|defn'] eqn:Ed.
      * erewrite bind_fail; [|reflexivity].
        simpl. by rewrite set_heap_id.
      * erewrite bind_run; [|reflexivity].
        erewrite bind_run; [|by eapply setattr_str_run].
        rewrite (IH m' (<[s := defn']> d)) by apply heap_set_heap_insert.
        rewrite meTalizers_set_heap. by rewrite set_heap_insert_twice.
    + erewrite bind_fail; [|by eapply getattr_str_fail].
      simpl. by rewrite set_heap_id.
Qed.

Lemma meTalize_run m d st :
  heap st !! m = Some d →
  let m' := fresh (dom (heap st)) in
  let d1 := meTalized_dict d in
  let out := decorated_copy (_meTalizers st) m m' d1 in
  meTalize m st = (out.1, set_heap (heap_after m m' d1 out.2) st).
Proof.
  intros E m' d1 out. unfold meTalize.
  erewrite bind_run; [|by apply meTalize_names_run].
  erewrite bind_run; [|reflexivity].
  rewrite meTalizers_set_heap. fold d1.
  subst out. unfold decorated_copy.
  destruct (bool_decide (_meTalizers st = [])); [done|].
  assert (heap (set_heap <[m := d1]> st) !! m = Some d1) as E1
    by apply heap_set_heap_insert.
  destruct (d1 !! "__name__") as [nm|] eqn:Enm; last first.
  { erewrite bind_fail; [|by eapply getattr_str_fail]. done. }
  erewrite bind_run; [|by eapply getattr_str_run].
  destruct nm as [|n|nm|xs|f cl]; try done.
  erewrite bind_run; [|apply ModuleType_run].
  assert (dom (heap (set_heap <[m := d1]> st)) = dom (heap st)) as ->.
  { simpl. apply dom_insert_lookup_L. eauto. }
  fold m'.
  assert (m ≠ m') as Hne by (by eapply fresh_ne).
  erewrite bind_run; last first.
  { eapply dict_update_run.
    - simpl. rewrite lookup_insert_ne by done. apply lookup_insert_eq.
    - simpl. apply lookup_insert_eq. }
  rewrite set_heap_insert_twice.
  fold (copy_dict (VStr nm) d1).
  set (c := copy_dict (VStr nm) d1).
  assert (heap (set_heap <[m' := c]> (set_heap <[m := d1]> st)) !! m = Some d1) as E2.
  { simpl. rewrite lookup_insert_ne by done. apply lookup_insert_eq. }
  destruct (d1 !! "__meTalized__") as [lst|] eqn:El; last first.
  { erewrite bind_fail; [|by eapply getattr_str_fail]. done. }
  erewrite bind_run; [|by eapply getattr_str_run].
  destruct (py_iter lst) as [e|names] eqn:Ei.
  { erewrite bind_fail; [|reflexivity]. done. }
  erewrite bind_run; [|reflexivity].
  pose proof (decorate_names_run names m' c
    (set_heap <[m' := c]> (set_heap <[m := d1]> st))
    (heap_set_heap_insert _ _ _)) as Hd.
  rewrite !meTalizers_set_heap in Hd.
  destruct (decorate_dict (_meTalizers st) names c) as [[e|[]] c'] eqn:Ed;
    simpl in Hd.
  - erewrite bind_fail; [|exact Hd].
    unfold set_heap; simpl. by rewrite insert_insert_eq.
  - erewrite bind_run; [|exact Hd].
    unfold_M. unfold set_heap; simpl. by rewrite insert_insert_eq.
Qed.
End decoration.

(** ** The hook as a whole *)

Section hook_facts.
Context `{Runtime}.

Lemma builtin_import_run args kw st r h1 :
  _builtin_import args kw (heap st) = (r, h1) →
  builtin_import args kw st = (r, set_heap (λ _, h1) st).
Proof. unfold builtin_import. by intros ->. Qed.

Lemma hook_run args kw st m h1 d :
  _builtin_import args kw (heap st) = (inr m, h1) →
  h1 !! m = Some d →
  let m' := fresh (dom h1) in
  let d1 := meTalized_dict d in
  let out := decorated_copy (_meTalizers st) m m' d1 in
  _meTalizing_import args kw st
  = (out.1, State (heap_after m m' d1 out.2 h1) (_meTalizers st) (builtins_import st)).
Proof.
  intros Ei Ed m' d1 out. unfold _meTalizing_import.
  erewrite bind_run; [|by apply builtin_import_run].
  by rewrite (meTalize_run m d).
Qed.


(** The hook never touches [_meTalizers] nor [builtins.__import__]. *)
Lemma meTalize_preserves m st :
  _meTalizers (meTalize m st).2 = _meTalizers st
  ∧ builtins_import (meTalize m st).2 = builtins_import st.
Proof.
  destruct (heap st !! m) as [d|] eqn:E.
  - by rewrite (meTalize_run m d).
  - unfold meTalize, meTalize_names, hasattr, deref. unfold_M. by rewrite E.
Qed.

Lemma hook_preserves args kw st :
  _meTalizers (_meTalizing_import args kw st).2 = _meTalizers st
  ∧ builtins_import (_meTalizing_import args kw st).2 = builtins_import st.
Proof.
  unfold _meTalizing_import, builtin_import. unfold mbind, M_bind.
  destruct (_builtin_import args kw (heap st)) as [[e|m] h1]; [done|].
  apply (meTalize_preserves m (set_heap (λ _, h1) st)).
Qed.

(** *** The inner loop *)

Lemma decorate_loop_app xs ys v :
  decorate_loop (xs ++ ys) v = decorate_loop xs v ≫= decorate_loop ys.
Proof.
  revert v. induction xs as [|x xs IH]; intros v; simpl; [done|].
  destruct (decorate_one x v); simpl; [done|]. apply IH.
Qed.

Lemma decorate_loop_stacked stack f :
  decorate_loop (reverse stack) f = stacked stack f.
Proof.
  induction stack as [|d rest IH]; [done|].
  rewrite reverse_cons, decorate_loop_app, IH. simpl.
  destruct (stacked rest f) as [e|g]; simpl; [done|].
  by destruct (decorate_one d g).
Qed.



Lemma stacked_total stack :
  (∀ e v, e ∈ stack → ∃ w, decorate_one e v = inr w) →
  ∀ v, ∃ w, stacked stack v = inr w.
Proof.
  induction stack as [|d rest IH]; intros Ht v; simpl; [eauto|].
  destruct (IH (λ e v Hin, Ht e v (list_elem_of_further _ _ _ Hin)) v) as [g ->].
  simpl. apply Ht. left.
Qed.

(** *** The loop over the listed names *)

Lemma decorate_dict_returns stack l : ∀ d,
  (∀ v, ∃ w, stacked stack v = inr w) →
  (∀ k, k ∈ l → is_Some (d !! k)) →
  (decorate_dict stack (VStr <$> l) d).1 = inr ().
Proof.
  induction l as [|s l IH]; intros d Ht Hb; [done|].
  rewrite fmap_cons. cbn [decorate_dict].
  destruct (Hb s) as [defn ->]; [left|].
  rewrite decorate_loop_stacked.
  destruct (Ht defn) as [w ->].
  apply IH; [done|]. intros k Hk.
  destruct (decide (s = k)) as [->|Hne].
  - rewrite lookup_insert_eq. eauto.
  - rewrite lookup_insert_ne by done. apply Hb. by right.
Qed.

Lemma occurrences_cons_eq k l : occurrences k (k :: l) = S (occurrences k l).
Proof. unfold occurrences. by rewrite filter_cons_True. Qed.

Lemma occurrences_cons_ne k s l : s ≠ k → occurrences k (s :: l) = occurrences k l.
Proof. intros Hne. unfold occurrences. by rewrite filter_cons_False. Qed.


Lemma occurrences_zero k l : k ∉ l → occurrences k l = 0.
Proof.
  induction l as [|s l IH]; intros Hin; [done|].
  apply not_elem_of_cons in Hin as [Hne Hin].
  rewrite occurrences_cons_ne by done. by apply IH.
Qed.

(** Each name is decorated once for every time it is listed. *)
Lemma decorate_dict_lookup stack l : ∀ d k v,
  (decorate_dict stack (VStr <$> l) d).1 = inr () →
  d !! k = Some v →
  ∃ w, (decorate_dict stack (VStr <$> l) d).2 !! k = Some w
       ∧ repeat_decorate stack (occurrences k l) v = inr w.
Proof.
  induction l as [|s l IH]; intros d k v Hr Hk.
  - exists v. by rewrite occurrences_zero by apply not_elem_of_nil.
  - revert Hr. rewrite fmap_cons. cbn [decorate_dict].
    destruct (d !! s) as [defn|] eqn:Es; [|done].
    destruct (decorate_loop (reverse stack) defn) as [e|defn'] eqn:Ed; [done|].
    intros Hr.
    destruct (decide (s = k)) as [->|Hne].
    + destruct (IH (<[k := defn']> d) k defn' Hr) as (w & Hw & Hrep).
      { apply lookup_insert_eq. }
      exists w. split; [done|].
      rewrite occurrences_cons_eq. simpl.
      assert (defn = v) as -> by congruence. by rewrite Ed.
    + destruct (IH (<[s := defn']> d) k v Hr) as (w & Hw & Hrep).
      { by rewrite lookup_insert_ne. }
      exists w. split; [done|]. by rewrite occurrences_cons_ne.
Qed.

(** A name that is not listed keeps the binding of the copy. *)
Lemma decorate_dict_frame stack names : ∀ d k,
  VStr k ∉ names →
  (decorate_dict stack names d).2 !! k = d !! k.
Proof.
  induction names as [|name names IH]; intros d k Hk; [done|].
  apply not_elem_of_cons in Hk as [Hne Hk].
  cbn [decorate_dict].
  destruct name as [|n|s|xs|f cl]; try done.
  destruct (d !! s) as [defn|] eqn:Es; [|done].
  destruct (decorate_loop (reverse stack) defn) as [e|defn'] eqn:Ed; [done|].
  rewrite IH by done. rewrite lookup_insert_ne; [done|]. congruence.
Qed.

Lemma repeat_decorate_once stack f :
  repeat_decorate stack 1 f = stacked stack f.
Proof.
  simpl. rewrite decorate_loop_stacked. by destruct (stacked stack f).
Qed.
End hook_facts.

Lemma rename_dict_binds names : ∀ d n,
  n ∈ names → cased n → is_Some (d !! n) →
  is_Some (rename_dict names d !! lower n).
Proof.
  induction names as [|a names IH]; intros d n Hin Hc Hs.
  - by apply elem_of_nil in Hin.
  - rewrite rename_dict_cons.
    destruct (decide (a = n)) as [->|Hne].
    + apply rename_dict_keeps_lower; [apply lower_not_cased|].
      destruct Hs as [v Hv]. rewrite (rename_step_cased _ _ v) by done.
      rewrite lookup_insert_eq. eauto.
    + apply elem_of_cons in Hin as [?|Hin]; [congruence|].
      apply IH; [done..|].
      rewrite rename_step_frame; [done | congruence | by apply cased_ne_lower].
Qed.

Lemma meTalized_dict_listed d :
  well_listed d →
  ∃ l, meTalized_dict d !! "__meTalized__" = Some (VList (VStr <$> l))
       ∧ ∀ k, k ∈ l → is_Some (meTalized_dict d !! k).
Proof.
  intros Hw. destruct (d !! "__meTalized__") as [v|] eqn:E.
  - rewrite meTalized_dict_has by (rewrite E; eauto).
    destruct (Hw v E) as (l & -> & Hl). eauto.
  - exists (meTalized_list d). split; [by apply meTalized_dict_list|].
    intros k Hk. unfold meTalized_list in Hk.
    apply list_elem_of_fmap in Hk as (n & -> & Hn).
    apply list_elem_of_filter in Hn as [Hc Hn].
    rewrite meTalized_dict_fresh by done.
    apply rename_dict_binds; [done..|].
    rewrite lookup_insert_ne by (symmetry; by eapply dir_dict_not_key).
    by apply elem_of_dir_dict.
Qed.

Section decorated_import.
Context `{Runtime}.

(** An import under a non-empty stack, on a module with a string
    [__name__] and a list of bound names, with decorators that return:
    the hook returns a new object, the cached module is only renamed, and
    every name of the copy holds the cached value decorated once per
    listing. *)
Lemma hook_decorates args kw st m h1 d nm l :
  _builtin_import args kw (heap st) = (inr m, h1) →
  h1 !! m = Some d →
  _meTalizers st ≠ [] →
  meTalized_dict d !! "__name__" = Some (VStr nm) →
  meTalized_dict d !! "__meTalized__" = Some (VList (VStr <$> l)) →
  (∀ k, k ∈ l → is_Some (meTalized_dict d !! k)) →
  (∀ e v, e ∈ _meTalizers st → ∃ w, decorate_one e v = inr w) →
  ∃ d',
    _meTalizing_import args kw st
    = (inr (fresh (dom h1)),
       State (<[fresh (dom h1) := d']> (<[m := meTalized_dict d]> h1))
             (_meTalizers st) (builtins_import st))
    ∧ ∀ k f, meTalized_dict d !! k = Some f →
        ∃ w, d' !! k = Some w
             ∧ repeat_decorate (_meTalizers st) (occurrences k l) f = inr w.
Proof.
  intros Ei Ed Hst Hnm Hl Hb Ht.
  rewrite (hook_run args kw st m h1 d Ei Ed).
  unfold decorated_copy.
  rewrite bool_decide_eq_false_2 by done.
  rewrite Hnm, Hl. cbn [py_iter].
  set (c := copy_dict (VStr nm) (meTalized_dict d)).
  assert (∀ k f, meTalized_dict d !! k = Some f → c !! k = Some f) as Hc.
  { intros k f Hk. by apply lookup_union_Some_l. }
  pose proof (decorate_dict_returns (_meTalizers st) l c
    (stacked_total _ Ht)) as Hr.
  pose proof (decorate_dict_lookup (_meTalizers st) l c) as Hlk.
  destruct (decorate_dict (_meTalizers st) (VStr <$> l) c) as [r c'].
  simpl in Hr, Hlk. rewrite Hr.
  - exists c'. split; [done|].
    intros k f Hk. apply Hlk; [|by apply Hc].
    apply Hr. intros k' Hk'. destruct (Hb k' Hk') as [f' Hf']. eauto.
  - intros k' Hk'. destruct (Hb k' Hk') as [f' Hf']. eauto.
Qed.
End decorated_import.






(** * Properties *)










(** ** The scope manager *)

Lemma meTalizers_pop_last st l x :
  _meTalizers st = (l ++ [x])%list →
  meTalizers_pop st = (inr (), set_meTalizers (λ _, l) st).
Proof.
  intros E. unfold meTalizers_pop, set_meTalizers. rewrite E.
  destruct (l ++ [x])%list as [|y l'] eqn:El.
  - by apply app_nil in El as [_ ?].
  - by rewrite <- El, removelast_last.
Qed.

Lemma MeTal_call_run {A} dec dargs dkw (body : M A) st :
  MeTal_call dec dargs dkw body st
  = let '(r, st2) :=
      body (set_meTalizers (λ l, (l ++ [(dec, dargs, dkw)])%list) st) in
    match meTalizers_pop st2 with
    | (inr _, st3) => (r, st3)
    | (inl e, st3) => (inl e, st3)
    end.
Proof. done. Qed.

(** C3.  Entering a scope appends exactly one [(decorator, args, kwargs)]
    tuple to [_meTalizers]; leaving it removes the last element; and when
    the body of the [with] statement leaves the stack as it found it, the
    statement ends as its body did, by a value or by an exception, with the
    stack equal to what it was before the scope was entered. *)
Theorem scope_stack_discipline {A} dec dargs dkw (body : M A) st :
  let entered := set_meTalizers (λ l, (l ++ [(dec, dargs, dkw)])%list) st in
  _meTalizers (body entered).2 = _meTalizers entered →
  meTalizers_append (dec, dargs, dkw) st = (inr (), entered)
  ∧ _meTalizers entered = (_meTalizers st ++ [(dec, dargs, dkw)])%list
  ∧ (∀ st' l x, _meTalizers st' = (l ++ [x])%list →
       meTalizers_pop st' = (inr (), set_meTalizers (λ _, l) st'))
  ∧ meTalizers_pop (body entered).2
    = (inr (), set_meTalizers (λ _, _meTalizers st) (body entered).2)
  ∧ (MeTal_call dec dargs dkw body st).1 = (body entered).1
  ∧ _meTalizers (MeTal_call dec dargs dkw body st).2 = _meTalizers st.
Proof.
  intros entered Hbal.
  assert (meTalizers_pop (body entered).2
          = (inr (), set_meTalizers (λ _, _meTalizers st) (body entered).2)) as Hpop.
  { eapply meTalizers_pop_last. by rewrite Hbal. }
  pose proof (MeTal_call_run dec dargs dkw body st) as Hrun. fold entered in Hrun.
  destruct (body entered) as [r st2] eqn:Hb. simpl in *.
  rewrite Hpop in Hrun. rewrite Hrun.
  repeat split; try done.
  intros st' l x. apply meTalizers_pop_last.
Qed.

(** [with meTal(decorator1): import simple] and
    [with meTal(decorator1): import nosuch]: the stack is empty again after
    the statement, whether the import returned or raised. *)
Lemma scope_stack_discipline_witness :
  _meTalizers
    (@MeTal_call loc (VFunc "decorator1" []) [] []
       (@_meTalizing_import example_runtime [VStr "simple"] [])
       (State example_heap [] MeTalizingImport)).2 = []
  ∧ (@MeTal_call loc (VFunc "decorator1" []) [] []
       (@_meTalizing_import example_runtime [VStr "nosuch"] [])
       (State example_heap [] MeTalizingImport)).1 = inl (ImportError "nosuch")
  ∧ _meTalizers
    (@MeTal_call loc (VFunc "decorator1" []) [] []
       (@_meTalizing_import example_runtime [VStr "nosuch"] [])
       (State example_heap [] MeTalizingImport)).2 = [].
Proof.
  split; [|split].
  - apply (@scope_stack_discipline loc (VFunc "decorator1" []) [] []
             (@_meTalizing_import example_runtime [VStr "simple"] [])
             (State example_heap [] MeTalizingImport)).
    apply (@hook_preserves example_runtime).
  - destruct (@scope_stack_discipline loc (VFunc "decorator1" []) [] []
             (@_meTalizing_import example_runtime [VStr "nosuch"] [])
             (State example_heap [] MeTalizingImport)) as (_ & _ & _ & _ & Hr & _).
    + apply (@hook_preserves example_runtime).
    + rewrite Hr. reflexivity.
  - apply (@scope_stack_discipline loc (VFunc "decorator1" []) [] []
             (@_meTalizing_import example_runtime [VStr "nosuch"] [])
             (State example_heap [] MeTalizingImport)).
    apply (@hook_preserves example_runtime).
Defined.

(** ** Renaming happens once *)

Section cached_module.
Context `{Runtime}.

(** Whatever the stack holds and however the decoration ends, the cached
    module is left renamed and nothing more. *)
Lemma hook_cached args kw st m h1 d :
  _builtin_import args kw (heap st) = (inr m, h1) →
  h1 !! m = Some d →
  heap (_meTalizing_import args kw st).2 !! m = Some (meTalized_dict d).
Proof.
  intros Ei Ed. rewrite (hook_run args kw st m h1 d Ei Ed). simpl.
  destruct (decorated_copy _ _ _ _).2 as [c|]; simpl.
  - rewrite lookup_insert_ne by (symmetry; by eapply fresh_ne).
    apply lookup_insert_eq.
  - apply lookup_insert_eq.
Qed.

(** The other objects of the heap are not touched. *)
Lemma hook_others args kw st m h1 d x :
  _builtin_import args kw (heap st) = (inr m, h1) →
  h1 !! m = Some d →
  x ≠ m → is_Some (h1 !! x) →
  heap (_meTalizing_import args kw st).2 !! x = h1 !! x.
Proof.
  intros Ei Ed Hx [dx Hdx]. rewrite (hook_run args kw st m h1 d Ei Ed). simpl.
  destruct (decorated_copy _ _ _ _).2 as [c|]; simpl.
  - rewrite lookup_insert_ne by (symmetry; by eapply fresh_ne).
    by rewrite lookup_insert_ne.
  - by rewrite lookup_insert_ne.
Qed.
End cached_module.



(** ** Names that fold to the same lowercase name *)

(** The lowercase name ends up bound to the value of one of the visited
    cased names that fold to it. *)
Lemma rename_dict_some names : ∀ d n,
  NoDup names → n ∈ names → cased n →
  (∀ x, x ∈ names → cased x → is_Some (d !! x)) →
  ∃ n', n' ∈ names ∧ cased n' ∧ lower n' = lower n
        ∧ rename_dict names d !! lower n = d !! n'.
Proof.
  induction names as [|a names IH]; intros d n Hnd Hin Hc Hb.
  - by apply elem_of_nil in Hin.
  - apply NoDup_cons in Hnd as [Ha Hnd].
    rewrite rename_dict_cons.
    destruct (decide (Exists (λ x, cased x ∧ lower x = lower n) names))
      as [Hex|Hnex].
    + apply Exists_exists in Hex as (x & Hx & Hcx & Hlx).
      destruct (IH (rename_step a d) x Hnd Hx Hcx) as (n' & Hn' & Hcn' & Hln' & Hr).
      { intros y Hy Hcy.
        rewrite rename_step_frame;
          [apply Hb; [by right|done] | by intros -> | by apply cased_ne_lower]. }
      exists n'. split; [by right|]. split; [done|]. split; [congruence|].
      rewrite <- Hlx, Hr.
      apply rename_step_frame; [by intros -> | by apply cased_ne_lower].
    + assert (n = a) as ->.
      { apply elem_of_cons in Hin as [?|Hin]; [done|].
        exfalso. apply Hnex, Exists_exists. eauto. }
      exists a. split; [left|]. split; [done|]. split; [done|].
      rewrite rename_dict_frame.
      * destruct (Hb a) as [v Hv]; [left | done |].
        rewrite (rename_step_cased _ _ v) by done.
        by rewrite lookup_insert_eq.
      * intros x Hx Hcx. split; [symmetry; by apply cased_ne_lower|].
        intros E. apply Hnex, Exists_exists. eauto.
Qed.







(** ** Exceptions *)

Lemma copy_dict_lookup nm (d : dict) k f :
  d !! k = Some f → copy_dict nm d !! k = Some f.
Proof. intros Hk. by apply lookup_union_Some_l. Qed.




(** ** The cached module and the copy *)

Section copy.
Context `{Runtime}.

Lemma hook_empty args kw st m h1 d :
  _builtin_import args kw (heap st) = (inr m, h1) →
  h1 !! m = Some d →
  _meTalizers st = [] →
  _meTalizing_import args kw st
  = (inr m, State (<[m := meTalized_dict d]> h1) [] (builtins_import st)).
Proof.
  intros Ei Ed Hst. rewrite (hook_run args kw st m h1 d Ei Ed).
  unfold decorated_copy. by rewrite Hst.
Qed.

Lemma decorated_copy_inr stack m m' d1 r :
  stack ≠ [] →
  (decorated_copy stack m m' d1).1 = inr r →
  r = m'
  ∧ ∃ nm lst names,
      d1 !! "__name__" = Some (VStr nm)
      ∧ d1 !! "__meTalized__" = Some lst
      ∧ py_iter lst = inr names
      ∧ (decorated_copy stack m m' d1).2
        = Some (decorate_dict stack names (copy_dict (VStr nm) d1)).2.
Proof.
  intros Hst. unfold decorated_copy.
  rewrite bool_decide_eq_false_2 by done.
  destruct (d1 !! "__name__") as [[|n|nm|xs|f cl]|]; try done.
  destruct (d1 !! "__meTalized__") as [lst|]; [|done].
  destruct (py_iter lst) as [e|names] eqn:Hi; [done|].
  destruct (decorate_dict stack names (copy_dict (VStr nm) d1)) as [[e|[]] c']
    eqn:Hd; [done|].
  simpl. intros [= <-]. split; [done|]. exists nm, lst, names.
  by rewrite Hd.
Qed.
End copy.

(** C9.  The hook writes decorated values on a new object only.  Whatever
    the stack holds and however the hook ends, the cached module is left as
    the renaming pass leaves it and the other objects of the heap are not
    touched; under a non-empty stack the returned object is new, and binds
    every unlisted name as the cached module does; under an empty stack the
    hook returns the cached module itself; so an import with an empty stack
    after a decorated import returns the cached module, undecorated. *)
Theorem decoration_on_copy `{Runtime} args kw st m h1 d :
  _builtin_import args kw (heap st) = (inr m, h1) →
  h1 !! m = Some d →
  let r := _meTalizing_import args kw st in
  heap r.2 !! m = Some (meTalized_dict d)
  ∧ (∀ x, x ≠ m → is_Some (h1 !! x) → heap r.2 !! x = h1 !! x)
  ∧ (_meTalizers st ≠ [] → ∀ m', r.1 = inr m' →
       h1 !! m' = None ∧ m' ≠ m
       ∧ ∃ d' lst names,
           heap r.2 !! m' = Some d'
           ∧ meTalized_dict d !! "__meTalized__" = Some lst
           ∧ py_iter lst = inr names
           ∧ ∀ k, VStr k ∉ names → is_Some (meTalized_dict d !! k) →
               d' !! k = meTalized_dict d !! k)
  ∧ (_meTalizers st = [] →
       r.1 = inr m ∧ heap r.2 = <[m := meTalized_dict d]> h1)
  ∧ (∀ args2 kw2,
       _builtin_import args2 kw2 (heap r.2) = (inr m, heap r.2) →
       let r2 := _meTalizing_import args2 kw2 (set_meTalizers (λ _, []) r.2) in
       r2.1 = inr m ∧ heap r2.2 !! m = Some (meTalized_dict d)).
Proof.
  intros Ei Ed r.
  assert (heap r.2 !! m = Some (meTalized_dict d)) as Hc
    by apply (hook_cached args kw st m h1 d Ei Ed).
  split; [done|]. split; [|split; [|split]].
  - intros x Hx Hs. by apply (hook_others args kw st m h1 d).
  - intros Hst m' Hr. subst r.
    rewrite (hook_run args kw st m h1 d Ei Ed) in Hr |- *.
    simpl in Hr.
    destruct (decorated_copy_inr _ _ _ _ _ Hst Hr)
      as (-> & nm & lst & names & Hnm & Hl & Hi & Hcopy).
    split; [apply not_elem_of_dom, is_fresh|].
    split; [symmetry; by eapply fresh_ne|].
    eexists _, lst, names. cbn [snd heap]. rewrite Hcopy. cbn [heap_after].
    split; [apply lookup_insert_eq|]. split; [done|]. split; [done|].
    intros k Hk [f Hf]. rewrite decorate_dict_frame by done.
    rewrite Hf. by apply copy_dict_lookup.
  - intros Hst. subst r.
    by rewrite (hook_empty args kw st m h1 d Ei Ed Hst).
  - intros args2 kw2 Ei2 r2. subst r2.
    rewrite (hook_empty args2 kw2 (set_meTalizers (λ _, []) r.2) m (heap r.2)
               (meTalized_dict d)); [|done..].
    simpl. split; [done|].
    rewrite lookup_insert_eq. by rewrite meTalized_dict_idemp.
Qed.

(** [with meTal(decorator1): import simple] and then [import simple]: the
    first import returns a new object with [hello] wrapped, the second the
    cached module with [hello] as defined. *)
Lemma decoration_on_copy_witness :
  let r := @_meTalizing_import example_runtime [VStr "simple"] []
             (State example_heap [decorator1] MeTalizingImport) in
  let r2 := @_meTalizing_import example_runtime [VStr "simple"] []
              (set_meTalizers (λ _, []) r.2) in
  (heap r.2 !! 1%positive ≫= (.!! "hello")) = Some (VFunc "HellO" [])
  ∧ imported_attr r "hello" = Some (VFunc "decorator1.wrapper" [VFunc "HellO" []])
  ∧ r2.1 = inr 1%positive
  ∧ imported_attr r2 "hello" = Some (VFunc "HellO" []).
Proof.
  intros r r2.
  destruct (@decoration_on_copy example_runtime [VStr "simple"] []
              (State example_heap [decorator1] MeTalizingImport)
              1%positive example_heap simple_py)
    as (Hc & _ & _ & _ & Hagain); [reflexivity..|].
  destruct (Hagain [VStr "simple"] []) as [Hr2 Hh2]; [reflexivity|].
  fold r in Hc, Hr2, Hh2. fold r2 in Hr2, Hh2.
  split; [|split; [|split]].
  - rewrite Hc. vm_compute. reflexivity.
  - vm_compute. reflexivity.
  - exact Hr2.
  - unfold imported_attr. rewrite Hr2, Hh2. vm_compute. reflexivity.
Defined.

(** ** Loading [meTal.py] *)

(** C10.  On an interpreter that has no module [__builtin__] (a Python 3)
    the top level of [meTal.py] raises the [ImportError] of line 224, and
    [builtins.__import__] is still the original import: the hook is never
    installed. *)
Theorem meTal_needs_builtin_module `{Runtime} st :
  builtins_import st = OriginalImport →
  (∀ h, ∃ m h', _builtin_import [VStr "sys"] [] h = (inr m, h')) →
  (∀ h, ∃ m h', _builtin_import [VStr "types"] [] h = (inr m, h')) →
  (∀ h, ∃ h', _builtin_import [VStr "__builtin__"] [] h
              = (inl (ImportError "__builtin__"), h')) →
  (meTal_py st).1 = inl (ImportError "__builtin__")
  ∧ builtins_import (meTal_py st).2 = OriginalImport
  ∧ _meTalizers (meTal_py st).2 = _meTalizers st.
Proof.
  intros Hi Hsys Htypes Hb.
  destruct (Hsys (heap st)) as (m1 & hp1 & E1).
  destruct (Htypes hp1) as (m2 & hp2 & E2).
  destruct (Hb hp2) as (hp3 & E3).
  unfold meTal_py.
  erewrite bind_run; last first.
  { unfold import_stmt. rewrite Hi. by apply builtin_import_run. }
  erewrite bind_run; last first.
  { unfold import_stmt. simpl. rewrite Hi. by apply builtin_import_run. }
  erewrite bind_fail; last first.
  { unfold import_stmt. simpl. rewrite Hi. by apply builtin_import_run. }
  done.
Qed.

(** The Python 3 interpreter has [sys] and [types] and no [__builtin__]. *)
Lemma meTal_needs_builtin_module_witness :
  (@meTal_py python3_runtime (State example_heap [] OriginalImport)).1
  = inl (ImportError "__builtin__")
  ∧ builtins_import
      (@meTal_py python3_runtime (State example_heap [] OriginalImport)).2
    = OriginalImport
  ∧ _meTalizers
      (@meTal_py python3_runtime (State example_heap [] OriginalImport)).2
    = [].
Proof.
  apply (@meTal_needs_builtin_module python3_runtime
           (State example_heap [] OriginalImport)).
  - reflexivity.
  - intros h. eexists _, _. reflexivity.
  - intros h. eexists _, _. reflexivity.
  - intros h. eexists. reflexivity.
Defined.

(** On the Python 2 interpreter the same top level runs to its end and
    leaves the hook installed. *)
Lemma meTal_py_installs_hook :
  (@meTal_py example_runtime (State example_heap [] OriginalImport)).1 = inr ()
  ∧ builtins_import
      (@meTal_py example_runtime (State example_heap [] OriginalImport)).2
    = MeTalizingImport.
Proof. split; reflexivity. Qed.

(** * Further properties of the hook, the scopes and the scripts *)

(** ** What the hook leaves alone *)

(** X1.  The import hook only reads [_meTalizers]: however it ends, by a
    module or by an exception, the stack of pending decorators and the
    binding of [builtins.__import__] are what they were. *)
Theorem hook_reads_stack_only `{Runtime} args kw st :
  _meTalizers (_meTalizing_import args kw st).2 = _meTalizers st
  ∧ builtins_import (_meTalizing_import args kw st).2 = builtins_import st.
Proof. apply hook_preserves. Qed.

(** ** Scopes *)

Lemma scope_run {A} dec dargs dkw (body : M A) st r st2 l x :
  body (set_meTalizers (λ l, (l ++ [(dec, dargs, dkw)])%list) st) = (r, st2) →
  _meTalizers st2 = (l ++ [x])%list →
  MeTal_call dec dargs dkw body st = (r, set_meTalizers (λ _, l) st2).
Proof.
  intros Hb Hs. rewrite MeTal_call_run, Hb.
  by rewrite (meTalizers_pop_last st2 l x Hs).
Qed.

(** X3.  Scopes nest: in [with meTal(d1), meTal(d2): body] the body runs
    with the two entries appended in that order, and when it leaves the
    stack as it found it the statement ends as the body did, with the
    state the body left and the stack of before the statement. *)
Theorem nested_scopes {A} dec1 dargs1 dkw1 dec2 dargs2 dkw2 (body : M A) st :
  let inside :=
    set_meTalizers
      (λ l, (l ++ [(dec1, dargs1, dkw1); (dec2, dargs2, dkw2)])%list) st in
  _meTalizers (body inside).2 = _meTalizers inside →
  MeTal_call dec1 dargs1 dkw1 (MeTal_call dec2 dargs2 dkw2 body) st
  = ((body inside).1, set_meTalizers (λ _, _meTalizers st) (body inside).2).
Proof.
  intros inside Hbal.
  set (st1 := set_meTalizers (λ l, (l ++ [(dec1, dargs1, dkw1)])%list) st).
  assert (set_meTalizers (λ l, (l ++ [(dec2, dargs2, dkw2)])%list) st1 = inside)
    as Hin.
  { unfold inside, st1, set_meTalizers; simpl. by rewrite <- app_assoc. }
  destruct (body inside) as [r st3] eqn:Hb. simpl in *.
  assert (MeTal_call dec2 dargs2 dkw2 body st1
          = (r, set_meTalizers
                  (λ _, (_meTalizers st ++ [(dec1, dargs1, dkw1)])%list) st3))
    as Hinner.
  { apply (scope_run dec2 dargs2 dkw2 body st1 r st3 _ (dec2, dargs2, dkw2)).
    - rewrite Hin. exact Hb.
    - rewrite Hbal. by rewrite <- app_assoc. }
  by rewrite (scope_run dec1 dargs1 dkw1 _ st _ _ (_meTalizers st)
                (dec1, dargs1, dkw1) Hinner).
Qed.

(** The import of [example2.py], line 28, between the two scopes of line 27. *)
Lemma nested_scopes_witness :
  imported_attr
    (@MeTal_call loc (VFunc "decorator1" []) [] []
       (@MeTal_call loc (VFunc "decorator2" []) [] []
          (@_meTalizing_import example_runtime [VStr "simple"] []))
       (State example_heap [] MeTalizingImport)) "hello"
  = Some (VFunc "decorator1.wrapper" [VFunc "decorator2.wrapper" [VFunc "HellO" []]])
  ∧ _meTalizers
      (@MeTal_call loc (VFunc "decorator1" []) [] []
         (@MeTal_call loc (VFunc "decorator2" []) [] []
            (@_meTalizing_import example_runtime [VStr "simple"] []))
         (State example_heap [] MeTalizingImport)).2 = [].
Proof.
  rewrite (@nested_scopes loc (VFunc "decorator1" []) [] []
             (VFunc "decorator2" []) [] []
             (@_meTalizing_import example_runtime [VStr "simple"] [])
             (State example_heap [] MeTalizingImport)).
  - split; [vm_compute; reflexivity | reflexivity].
  - apply (@hook_preserves example_runtime).
Defined.

(** X4.  Leaving a scope pops whatever entry is last, its own or not: when
    the body leaves the stack [l ++ [x]], the statement ends as the body did
    and leaves the stack [l]; and when the body leaves the stack empty, the
    [pop] of the [finally] clause raises [IndexError], which is how the
    statement ends, whatever the body returned or raised. *)
Theorem scope_exit_pops_last {A} dec dargs dkw (body : M A) st :
  let entered := set_meTalizers (λ l, (l ++ [(dec, dargs, dkw)])%list) st in
  (∀ l x, _meTalizers (body entered).2 = (l ++ [x])%list →
     MeTal_call dec dargs dkw body st
     = ((body entered).1, set_meTalizers (λ _, l) (body entered).2))
  ∧ (_meTalizers (body entered).2 = [] →
     MeTal_call dec dargs dkw body st = (inl IndexError, (body entered).2)).
Proof.
  intros entered. split.
  - intros l x Hs. destruct (body entered) as [r st2] eqn:Hb.
    by apply (scope_run _ _ _ _ _ _ _ _ x).
  - intros Hs. rewrite MeTal_call_run. fold entered.
    destruct (body entered) as [r st2]. simpl in *.
    unfold meTalizers_pop. by rewrite Hs.
Qed.

(** A body that pushes [broken] leaves [decorator1] on the stack after the
    scope of [decorator1]; a body that empties the stack makes the scope
    end by [IndexError]. *)
Lemma scope_exit_pops_last_witness :
  _meTalizers
    (MeTal_call (VFunc "decorator1" []) [] [] push_broken
       (State example_heap [] MeTalizingImport)).2 = [decorator1]
  ∧ (MeTal_call (VFunc "decorator1" []) [] [] clear_stack
       (State example_heap [] MeTalizingImport)).1 = inl IndexError.
Proof.
  destruct (@scope_exit_pops_last () (VFunc "decorator1" []) [] [] push_broken
              (State example_heap [] MeTalizingImport)) as [Hpop _].
  destruct (@scope_exit_pops_last () (VFunc "decorator1" []) [] [] clear_stack
              (State example_heap [] MeTalizingImport)) as [_ Hempty].
  split.
  - by rewrite (Hpop [decorator1] broken).
  - by rewrite Hempty.
Defined.

(** ** Loading the module *)

(** X10.  The top level of [meTal.py] installs the hook or changes nothing.
    Run where [builtins.__import__] is the original import, it performs the
    imports of [sys], [types], [__builtin__] and [contextlib] in this
    order.  When the four return, it runs to its end, leaving the hook
    installed and a new empty [_meTalizers]; otherwise it ends by the
    exception of the first of the four that raises, with the heap that
    import left, the original import still in place and [_meTalizers]
    untouched. *)
Theorem meTal_py_all_or_nothing `{Runtime} st :
  builtins_import st = OriginalImport →
  let out := imports_in_order ["sys"; "types"; "__builtin__"; "contextlib"]
               (heap st) in
  (meTal_py st
   = match out.1 with
     | inr _ => (inr (), State out.2 [] MeTalizingImport)
     | inl e => (inl e, State out.2 (_meTalizers st) OriginalImport)
     end)
  ∧ (∀ e h', _builtin_import [VStr "sys"] [] (heap st) = (inl e, h') →
       (meTal_py st).1 = inl e)
  ∧ (∀ m1 h1 e h', _builtin_import [VStr "sys"] [] (heap st) = (inr m1, h1) →
       _builtin_import [VStr "types"] [] h1 = (inl e, h') →
       (meTal_py st).1 = inl e)
  ∧ (∀ m1 h1 m2 h2 e h',
       _builtin_import [VStr "sys"] [] (heap st) = (inr m1, h1) →
       _builtin_import [VStr "types"] [] h1 = (inr m2, h2) →
       _builtin_import [VStr "__builtin__"] [] h2 = (inl e, h') →
       (meTal_py st).1 = inl e)
  ∧ (∀ m1 h1 m2 h2 m3 h3 e h',
       _builtin_import [VStr "sys"] [] (heap st) = (inr m1, h1) →
       _builtin_import [VStr "types"] [] h1 = (inr m2, h2) →
       _builtin_import [VStr "__builtin__"] [] h2 = (inr m3, h3) →
       _builtin_import [VStr "contextlib"] [] h3 = (inl e, h') →
       (meTal_py st).1 = inl e)
  ∧ (((meTal_py st).1 = inr ()
      ∧ builtins_import (meTal_py st).2 = MeTalizingImport
      ∧ _meTalizers (meTal_py st).2 = [])
     ∨ (∃ e, (meTal_py st).1 = inl e
             ∧ builtins_import (meTal_py st).2 = OriginalImport
             ∧ _meTalizers (meTal_py st).2 = _meTalizers st)).
Proof.
  intros Hi out.
  assert (meTal_py st
          = match out.1 with
            | inr _ => (inr (), State out.2 [] MeTalizingImport)
            | inl e => (inl e, State out.2 (_meTalizers st) OriginalImport)
            end) as Heq.
  { subst out. destruct st as [h stack imp]. simpl in Hi. subst imp.
    unfold meTal_py, mbind, M_bind, import_stmt, builtin_import.
    cbn [imports_in_order builtins_import heap _meTalizers set_heap fst snd].
    destruct (_builtin_import [VStr "sys"] [] h) as [[e|m1] h1]; [done|].
    cbn [builtins_import heap _meTalizers set_heap fst snd].
    destruct (_builtin_import [VStr "types"] [] h1) as [[e|m2] h2]; [done|].
    cbn [builtins_import heap _meTalizers set_heap fst snd].
    destruct (_builtin_import [VStr "__builtin__"] [] h2) as [[e|m3] h3];
      [done|].
    cbn [builtins_import heap _meTalizers set_heap fst snd].
    by destruct (_builtin_import [VStr "contextlib"] [] h3) as [[e|m4] h4]. }
  split; [exact Heq|].
  rewrite Heq. subst out. cbn [imports_in_order].
  split; [|split; [|split; [|split]]].
  - intros e h' E1. by rewrite E1.
  - intros m1 h1 e h' E1 E2. by rewrite E1, E2.
  - intros m1 h1 m2 h2 e h' E1 E2 E3. by rewrite E1, E2, E3.
  - intros m1 h1 m2 h2 m3 h3 e h' E1 E2 E3 E4. by rewrite E1, E2, E3, E4.
  - destruct (_builtin_import [VStr "sys"] [] (heap st)) as [[e|m1] h1];
      [right; by exists e|].
    destruct (_builtin_import [VStr "types"] [] h1) as [[e|m2] h2];
      [right; by exists e|].
    destruct (_builtin_import [VStr "__builtin__"] [] h2) as [[e|m3] h3];
      [right; by exists e|].
    destruct (_builtin_import [VStr "contextlib"] [] h3) as [[e|m4] h4];
      [right; by exists e|].
    by left.
Qed.

(** On the Python 2 interpreter the load succeeds; on the Python 3
    interpreter it stops at [__builtin__], with the exception of that
    import. *)
Lemma meTal_py_all_or_nothing_witness :
  (@meTal_py example_runtime (State example_heap [decorator1] OriginalImport)).1
  = inr ()
  ∧ (@meTal_py python3_runtime (State example_heap [decorator1] OriginalImport)).1
    = inl (ImportError "__builtin__")
  ∧ _meTalizers
      (@meTal_py python3_runtime (State example_heap [decorator1] OriginalImport)).2
    = [decorator1].
Proof.
  destruct (@meTal_py_all_or_nothing example_runtime
              (State example_heap [decorator1] OriginalImport) eq_refl)
    as (Heq2 & _).
  destruct (@meTal_py_all_or_nothing python3_runtime
              (State example_heap [decorator1] OriginalImport) eq_refl)
    as (Heq3 & _ & _ & Hthird & _).
  split; [|split].
  - rewrite Heq2. reflexivity.
  - apply (Hthird 4%positive example_heap 5%positive example_heap
             (ImportError "__builtin__") example_heap); reflexivity.
  - rewrite Heq3. reflexivity.
Defined.

(** ** A scope around an import *)




(** ** One import after another *)



(** ** Modules with nothing to decorate *)

Lemma rename_dict_no_cased names : ∀ d,
  (∀ n, n ∈ names → ¬ cased n) → rename_dict names d = d.
Proof.
  induction names as [|a names IH]; intros d Hn; [done|].
  rewrite rename_dict_cons, rename_step_not_cased by (apply Hn; left).
  apply IH. intros n Hin. apply Hn. by right.
Qed.

Lemma filter_cased_nil (names : list string) :
  (∀ n, n ∈ names → ¬ cased n) → filter cased names = [].
Proof.
  induction names as [|a names IH]; intros Hn; [done|].
  rewrite filter_cons_False by (apply Hn; left).
  apply IH. intros n Hin. apply Hn. by right.
Qed.

Lemma meTalized_dict_lowercase d :
  d !! "__meTalized__" = None →
  (∀ n, is_Some (d !! n) → ¬ cased n) →
  meTalized_dict d = <["__meTalized__" := VList []]> d.
Proof.
  intros Hk Hn.
  assert (∀ n, n ∈ dir_dict d → ¬ cased n) as Hdir.
  { intros n Hin. by apply Hn, elem_of_dir_dict. }
  rewrite meTalized_dict_fresh by done.
  rewrite rename_dict_no_cased by done.
  unfold meTalized_list. by rewrite filter_cased_nil.
Qed.

(** The hook on a renamed namespace [D] whose list is empty: the copy is
    made and no decorator is called. *)
Lemma hook_empty_list `{Runtime} args kw st m h1 d nm :
  _builtin_import args kw (heap st) = (inr m, h1) →
  h1 !! m = Some d →
  _meTalizers st ≠ [] →
  meTalized_dict d !! "__name__" = Some (VStr nm) →
  meTalized_dict d !! "__meTalized__" = Some (VList []) →
  _meTalizing_import args kw st
  = (inr (fresh (dom h1)),
     State (<[fresh (dom h1) := copy_dict (VStr nm) (meTalized_dict d)]>
              (<[m := meTalized_dict d]> h1))
           (_meTalizers st) (builtins_import st)).
Proof.
  intros Ei Ed Hst Hnm Hl.
  rewrite (hook_run args kw st m h1 d Ei Ed).
  unfold decorated_copy.
  rewrite bool_decide_eq_false_2 by done.
  by rewrite Hnm, Hl.
Qed.

(** X6.  A module all of whose names are lowercase gets [__meTalized__ = []]
    on its first import, and an import inside a scope then returns a new
    object that binds every name as the module does: no entry of the stack
    is called, so the import succeeds whatever was pushed as a decorator,
    callable or not. *)
Theorem lowercase_module_not_decorated `{Runtime} args kw st m h1 d nm :
  _builtin_import args kw (heap st) = (inr m, h1) →
  h1 !! m = Some d →
  _meTalizers st ≠ [] →
  d !! "__meTalized__" = None →
  (∀ n, is_Some (d !! n) → ¬ cased n) →
  d !! "__name__" = Some (VStr nm) →
  ∃ m' st' d',
    _meTalizing_import args kw st = (inr m', st')
    ∧ h1 !! m' = None
    ∧ heap st' !! m = Some (<["__meTalized__" := VList []]> d)
    ∧ heap st' !! m' = Some d'
    ∧ d' !! "__meTalized__" = Some (VList [])
    ∧ ∀ k, is_Some (d !! k) → d' !! k = d !! k.
Proof.
  intros Ei Ed Hst Hk Hn Hnm.
  pose proof (meTalized_dict_lowercase d Hk Hn) as HD.
  assert (meTalized_dict d !! "__name__" = Some (VStr nm)) as Hnm'.
  { rewrite HD. by rewrite lookup_insert_ne. }
  assert (meTalized_dict d !! "__meTalized__" = Some (VList [])) as Hl.
  { rewrite HD. apply lookup_insert_eq. }
  eexists _, _, _. split.
  { by apply (hook_empty_list args kw st m h1 d nm). }
  simpl. split; [apply not_elem_of_dom, is_fresh|].
  split.
  { rewrite lookup_insert_ne by (symmetry; by eapply fresh_ne).
    rewrite lookup_insert_eq. by rewrite HD. }
  split; [apply lookup_insert_eq|].
  split; [by apply copy_dict_lookup|].
  intros k [v Hv]. rewrite Hv. apply copy_dict_lookup.
  rewrite HD. rewrite lookup_insert_ne; [done|].
  intros <-. by rewrite Hk in Hv.
Qed.

(** [import plain] with the number [3] pushed as a decorator. *)
Lemma lowercase_module_not_decorated_witness :
  imported_attr
    (@_meTalizing_import extra_runtime [VStr "plain"] []
       (State extra_heap [(VInt 3, [], [])] MeTalizingImport)) "hello"
  = Some (VFunc "hello" [])
  ∧ ∃ m' st',
      @_meTalizing_import extra_runtime [VStr "plain"] []
        (State extra_heap [(VInt 3, [], [])] MeTalizingImport) = (inr m', st').
Proof.
  split; [vm_compute; reflexivity|].
  assert (dir_dict plain_py = ["__doc__"; "__name__"; "hello"]) as Hdir
    by (vm_compute; reflexivity).
  destruct (@lowercase_module_not_decorated extra_runtime [VStr "plain"] []
              (State extra_heap [(VInt 3, [], [])] MeTalizingImport)
              13%positive extra_heap plain_py "plain")
    as (m' & st' & d' & Hrun & _).
  - reflexivity.
  - reflexivity.
  - discriminate.
  - vm_compute; reflexivity.
  - intros n Hs Hc. apply elem_of_dir_dict in Hs. rewrite Hdir in Hs.
    rewrite !elem_of_cons, elem_of_nil in Hs.
    destruct Hs as [->|[->|[->|[]]]]; apply Hc; reflexivity.
  - vm_compute; reflexivity.
  - exists m', st'. exact Hrun.
Defined.

(** X9.  A module that sets [__meTalized__ = []] itself, as [meTal.py]
    does on line 227, is left out of the mechanism: the hook leaves its
    namespace as it is, cased names included, and an import inside a scope
    returns a new object with the same bindings and calls no decorator. *)
Theorem own_empty_list_opts_out `{Runtime} args kw st m h1 d nm :
  _builtin_import args kw (heap st) = (inr m, h1) →
  h1 !! m = Some d →
  d !! "__meTalized__" = Some (VList []) →
  d !! "__name__" = Some (VStr nm) →
  heap (_meTalizing_import args kw st).2 !! m = Some d
  ∧ (_meTalizers st = [] → (_meTalizing_import args kw st).1 = inr m)
  ∧ (_meTalizers st ≠ [] →
       ∃ m' d', (_meTalizing_import args kw st).1 = inr m'
                ∧ h1 !! m' = None
                ∧ heap (_meTalizing_import args kw st).2 !! m' = Some d'
                ∧ ∀ k, is_Some (d !! k) → d' !! k = d !! k).
Proof.
  intros Ei Ed Hl Hnm.
  assert (meTalized_dict d = d) as HD by (apply meTalized_dict_has; eauto).
  split; [|split].
  - rewrite (hook_cached args kw st m h1 d Ei Ed). by rewrite HD.
  - intros Hst. by rewrite (hook_empty args kw st m h1 d Ei Ed Hst).
  - intros Hst.
    rewrite (hook_empty_list args kw st m h1 d nm Ei Ed Hst)
      by (by rewrite HD).
    eexists _, _. simpl. split; [done|].
    split; [apply not_elem_of_dom, is_fresh|].
    split; [apply lookup_insert_eq|].
    intros k [v Hv]. rewrite Hv. apply copy_dict_lookup. by rewrite HD.
Qed.

(** [import optout] under [with meTal(broken)]: [HellO] keeps its name and
    its definition. *)
Lemma own_empty_list_opts_out_witness :
  imported_attr
    (@_meTalizing_import extra_runtime [VStr "optout"] []
       (State extra_heap [broken] MeTalizingImport)) "HellO"
  = Some (VFunc "HellO" [])
  ∧ heap (@_meTalizing_import extra_runtime [VStr "optout"] []
            (State extra_heap [broken] MeTalizingImport)).2 !! 12%positive
    = Some optout_py.
Proof.
  split; [vm_compute; reflexivity|].
  apply (@own_empty_list_opts_out extra_runtime [VStr "optout"] []
           (State extra_heap [broken] MeTalizingImport)
           12%positive extra_heap optout_py "optout").
  - reflexivity.
  - reflexivity.
  - vm_compute; reflexivity.
  - vm_compute; reflexivity.
Defined.

(** ** Modules the copy cannot be made of *)

(** X7.  The copy is made with [types.ModuleType(module.__name__)], after
    the renaming.  Inside a scope, a module left without [__name__] makes
    the hook raise [AttributeError], and one whose [__name__] is not a
    string makes it raise [TypeError]; in both cases no object is created
    and the cached module stays renamed.  The renaming itself can cause
    this: on its first import, a module whose cased names folding to
    [__name__] (such as [__NAME__]) are bound to values that are not strings
    cannot be imported inside a scope. *)
Theorem decorated_import_needs_name `{Runtime} args kw st m h1 d :
  _builtin_import args kw (heap st) = (inr m, h1) →
  h1 !! m = Some d →
  _meTalizers st ≠ [] →
  let after := State (<[m := meTalized_dict d]> h1) (_meTalizers st)
                 (builtins_import st) in
  (meTalized_dict d !! "__name__" = None →
     _meTalizing_import args kw st = (inl (AttributeError "__name__"), after))
  ∧ (∀ v, meTalized_dict d !! "__name__" = Some v → (∀ s, v ≠ VStr s) →
       _meTalizing_import args kw st = (inl TypeError, after))
  ∧ (d !! "__meTalized__" = None →
     (∃ n, cased n ∧ lower n = "__name__" ∧ is_Some (d !! n)) →
     (∀ n v, cased n → lower n = "__name__" → d !! n = Some v →
        ∀ s, v ≠ VStr s) →
     _meTalizing_import args kw st = (inl TypeError, after)).
Proof.
  intros Ei Ed Hst after.
  assert (∀ v, meTalized_dict d !! "__name__" = Some v → (∀ s, v ≠ VStr s) →
            _meTalizing_import args kw st = (inl TypeError, after)) as Hty.
  { intros v Hv Hns.
    rewrite (hook_run args kw st m h1 d Ei Ed). unfold decorated_copy.
    rewrite bool_decide_eq_false_2 by done. rewrite Hv.
    destruct v as [|z|s|xs|g cl]; try done. by destruct (Hns s). }
  split; [|split; [exact Hty|]].
  - intros Hnone.
    rewrite (hook_run args kw st m h1 d Ei Ed). unfold decorated_copy.
    rewrite bool_decide_eq_false_2 by done. by rewrite Hnone.
  - intros Hk (n & Hc & Hl & Hs) Hbad.
    assert (n ∈ dir_dict d) as Hin by (by apply elem_of_dir_dict).
    destruct (rename_dict_some (dir_dict d)
                (<["__meTalized__" := VList (VStr <$> meTalized_list d)]> d) n)
      as (n' & Hn' & Hcn' & Hl' & Hr); [apply NoDup_dir_dict | done | done | |].
    { intros x Hx Hcx.
      rewrite lookup_insert_ne by (symmetry; by eapply dir_dict_not_key).
      by apply elem_of_dir_dict. }
    rewrite lookup_insert_ne in Hr by (symmetry; by eapply dir_dict_not_key).
    destruct (proj1 (elem_of_dir_dict d n') Hn') as [v' Hv'].
    apply (Hty v').
    + rewrite meTalized_dict_fresh by done. rewrite <- Hl. by rewrite Hr.
    + apply (Hbad n'); [done | congruence | done].
Qed.

(** [import odd] under [with meTal(decorator1)]: [__NAME__ = 3] has taken
    the place of [__name__]. *)
Lemma decorated_import_needs_name_witness :
  (@_meTalizing_import extra_runtime [VStr "odd"] []
     (State extra_heap [decorator1] MeTalizingImport)).1 = inl TypeError.
Proof.
  destruct (@decorated_import_needs_name extra_runtime [VStr "odd"] []
              (State extra_heap [decorator1] MeTalizingImport)
              11%positive extra_heap odd_py) as (_ & _ & Hodd).
  - reflexivity.
  - reflexivity.
  - discriminate.
  - rewrite Hodd; [reflexivity | vm_compute; reflexivity | |].
    + exists "__NAME__". split; [vm_compute; discriminate|].
      split; [reflexivity | vm_compute; eauto].
    + assert (dir_dict odd_py = ["__NAME__"; "__doc__"; "__name__"]) as Hdir
        by (vm_compute; reflexivity).
      intros n v Hc Hl Hv s.
      assert (n ∈ dir_dict odd_py) as Hin by (apply elem_of_dir_dict; eauto).
      rewrite Hdir in Hin. rewrite !elem_of_cons, elem_of_nil in Hin.
      destruct Hin as [->|[->|[->|[]]]];
        [| exfalso; apply Hc; reflexivity..].
      vm_compute in Hv. injection Hv as <-. discriminate.
Defined.

(** X8.  A [__meTalized__] attribute the module brought itself is read
    only inside a scope.  With an empty stack the hook returns the cached
    module and leaves the heap as the import left it, whatever the
    attribute holds; inside a scope an attribute that is [None], a number
    or a function object, or a list whose first element is [None], a
    number, a list or a function object, makes the hook raise
    [TypeError]. *)
Theorem own_list_read_in_scope_only `{Runtime} args kw st m h1 d lst nm :
  _builtin_import args kw (heap st) = (inr m, h1) →
  h1 !! m = Some d →
  d !! "__meTalized__" = Some lst →
  d !! "__name__" = Some (VStr nm) →
  (_meTalizers st = [] →
     _meTalizing_import args kw st = (inr m, State h1 [] (builtins_import st)))
  ∧ (_meTalizers st ≠ [] → not_iterable lst →
       (_meTalizing_import args kw st).1 = inl TypeError)
  ∧ (_meTalizers st ≠ [] → ∀ name rest, lst = VList (name :: rest) →
       not_a_name name →
       (_meTalizing_import args kw st).1 = inl TypeError).
Proof.
  intros Ei Ed Hl Hnm.
  assert (meTalized_dict d = d) as HD by (apply meTalized_dict_has; eauto).
  split; [|split].
  - intros Hst. rewrite (hook_empty args kw st m h1 d Ei Ed Hst).
    by rewrite HD, insert_id.
  - intros Hst Hni.
    rewrite (hook_run args kw st m h1 d Ei Ed). unfold decorated_copy.
    rewrite bool_decide_eq_false_2 by done. rewrite HD, Hnm, Hl.
    by destruct lst as [|z|s|xs|g cl].
  - intros Hst name rest -> Hnn.
    rewrite (hook_run args kw st m h1 d Ei Ed). unfold decorated_copy.
    rewrite bool_decide_eq_false_2 by done. rewrite HD, Hnm, Hl.
    cbn [py_iter decorate_dict].
    by destruct name as [|z|s|xs|g cl].
Qed.

(** [import badlist], whose [__meTalized__] is [7]: fine outside a scope,
    [TypeError] inside one. *)
Lemma own_list_read_in_scope_only_witness :
  (@_meTalizing_import extra_runtime [VStr "badlist"] []
     (State extra_heap [] MeTalizingImport)).1 = inr 14%positive
  ∧ (@_meTalizing_import extra_runtime [VStr "badlist"] []
       (State extra_heap [decorator1] MeTalizingImport)).1 = inl TypeError.
Proof.
  destruct (@own_list_read_in_scope_only extra_runtime [VStr "badlist"] []
              (State extra_heap [] MeTalizingImport)
              14%positive extra_heap badlist_py (VInt 7) "badlist")
    as (Hout & _); [reflexivity | reflexivity | vm_compute; reflexivity..|].
  destruct (@own_list_read_in_scope_only extra_runtime [VStr "badlist"] []
              (State extra_heap [decorator1] MeTalizingImport)
              14%positive extra_heap badlist_py (VInt 7) "badlist")
    as (_ & Hin & _); [reflexivity | reflexivity | vm_compute; reflexivity..|].
  split.
  - by rewrite Hout.
  - apply Hin; [discriminate | exact I].
Defined.

(** ** The example scripts *)

Lemma well_listed_meTalized d : well_listed d → well_listed (meTalized_dict d).
Proof.
  intros Hw v Hv. destruct (meTalized_dict_listed d Hw) as (l & Hl & Hb).
  exists l. split; [congruence | done].
Qed.

Lemma meTal_py_done `{Runtime} st st1 :
  meTal_py st = (inr (), st1) →
  builtins_import st1 = MeTalizingImport ∧ _meTalizers st1 = [].
Proof.
  unfold meTal_py, mbind, M_bind.
  destruct (import_stmt "sys" st) as [[e|m1] s1]; [done|].
  destruct (import_stmt "types" s1) as [[e|m2] s2]; [done|].
  destruct (import_stmt "__builtin__" s2) as [[e|m3] s3]; [done|].
  destruct (import_stmt "contextlib" s3) as [[e|m4] s4]; [done|].
  simpl. by intros [= <-].
Qed.

Section script_steps.
Context `{Runtime}.
Context (m : loc).
Hypothesis cached :
  ∀ h, is_Some (h !! m) → _builtin_import [VStr "simple"] [] h = (inr m, h).

Lemma call_hello_run x dx g s :
  heap s !! x = Some dx → dx !! "hello" = Some g →
  call_hello x s = (call g [VStr "Guido"] [], s).
Proof.
  intros Ex Eg. unfold call_hello.
  erewrite bind_run; [|by eapply getattr_str_run]. done.
Qed.

(** [import simple] inside a scope. *)
Lemma import_simple_in_scope s d nm l f :
  builtins_import s = MeTalizingImport →
  heap s !! m = Some d →
  _meTalizers s ≠ [] →
  meTalized_dict d !! "__name__" = Some (VStr nm) →
  meTalized_dict d !! "__meTalized__" = Some (VList (VStr <$> l)) →
  (∀ k, k ∈ l → is_Some (meTalized_dict d !! k)) →
  occurrences "hello" l = 1 →
  meTalized_dict d !! "hello" = Some f →
  (∀ e v, e ∈ _meTalizers s → ∃ w, decorate_one e v = inr w) →
  ∃ m' s' d' w,
    import_simple s = (inr m', s')
    ∧ _meTalizers s' = _meTalizers s
    ∧ builtins_import s' = MeTalizingImport
    ∧ heap s' !! m = Some (meTalized_dict d)
    ∧ heap s' !! m' = Some d'
    ∧ d' !! "hello" = Some w
    ∧ stacked (_meTalizers s) f = inr w.
Proof.
  intros Hi Ed Hs Hnm Hl Hb Ho Hf Ht.
  destruct (hook_decorates [VStr "simple"] [] s m (heap s) d nm l)
    as (d' & Hrun & Hd'); [apply cached; eauto | done..|].
  destruct (Hd' "hello" f Hf) as (w & Hw & Hrep).
  rewrite Ho, repeat_decorate_once in Hrep.
  eexists _, _, d', w. split.
  { unfold import_simple, import_stmt. rewrite Hi. exact Hrun. }
  simpl. repeat split; try done.
  - rewrite lookup_insert_ne by (symmetry; by eapply fresh_ne).
    apply lookup_insert_eq.
  - apply lookup_insert_eq.
Qed.

(** The body of the scopes of [example2.py]. *)
Lemma import_and_call_in_scope s d nm l f w :
  builtins_import s = MeTalizingImport →
  heap s !! m = Some d →
  _meTalizers s ≠ [] →
  meTalized_dict d !! "__name__" = Some (VStr nm) →
  meTalized_dict d !! "__meTalized__" = Some (VList (VStr <$> l)) →
  (∀ k, k ∈ l → is_Some (meTalized_dict d !! k)) →
  occurrences "hello" l = 1 →
  meTalized_dict d !! "hello" = Some f →
  (∀ e v, e ∈ _meTalizers s → ∃ w, decorate_one e v = inr w) →
  stacked (_meTalizers s) f = inr w →
  ∃ s',
    (simple ← import_simple; call_hello simple) s
    = (call w [VStr "Guido"] [], s')
    ∧ _meTalizers s' = _meTalizers s
    ∧ builtins_import s' = MeTalizingImport
    ∧ heap s' !! m = Some (meTalized_dict d).
Proof.
  intros Hi Ed Hs Hnm Hl Hb Ho Hf Ht Hw.
  destruct (import_simple_in_scope s d nm l f)
    as (m' & s' & d' & w' & Hrun & Hs' & Hi' & Hm & Hm' & Hh & Hw'); try done.
  assert (w' = w) as -> by congruence.
  exists s'. split; [|done].
  erewrite bind_run; [|exact Hrun].
  by apply (call_hello_run m' d').
Qed.

(** [import simple] outside any scope. *)
Lemma import_simple_plain s d :
  builtins_import s = MeTalizingImport →
  heap s !! m = Some d →
  _meTalizers s = [] →
  import_simple s
  = (inr m, State (<[m := meTalized_dict d]> (heap s)) [] MeTalizingImport).
Proof.
  intros Hi Ed Hs. unfold import_simple, import_stmt. rewrite Hi.
  rewrite (hook_empty [VStr "simple"] [] s m (heap s) d); [|apply cached; eauto|done..].
  by rewrite Hi.
Qed.
End script_steps.

(** X11.  [example.py] runs as its comments say.  Once [meTal] is loaded
    and with [simple] in the module cache, defining [hello] through one
    cased name, the call of line 16 calls [decorator(f)], the call of line
    20 calls [f] itself, [f] being the definition of [simple]; the script
    ends with an empty stack and the hook installed. *)
Theorem example_py_runs `{Runtime} decorator st st1 m d nm f w r1 r2 :
  meTal_py st = (inr (), st1) →
  (∀ h, is_Some (h !! m) → _builtin_import [VStr "simple"] [] h = (inr m, h)) →
  heap st1 !! m = Some d →
  well_listed d →
  meTalized_dict d !! "__name__" = Some (VStr nm) →
  (∀ l, meTalized_dict d !! "__meTalized__" = Some (VList (VStr <$> l)) →
        occurrences "hello" l = 1) →
  meTalized_dict d !! "hello" = Some f →
  (∀ v, ∃ w, call decorator [v] [] = inr w) →
  call decorator [f] [] = inr w →
  call w [VStr "Guido"] [] = inr r1 →
  call f [VStr "Guido"] [] = inr r2 →
  ∃ st',
    example_py decorator st = (inr (r1, r2), st')
    ∧ _meTalizers st' = []
    ∧ builtins_import st' = MeTalizingImport
    ∧ heap st' !! m = Some (meTalized_dict d).
Proof.
  intros Hload Hc Ed Hw Hnm Hone Hf Ht Hdw Hr1 Hr2.
  destruct (meTal_py_done st st1 Hload) as [Hi1 Hs1].
  destruct (meTalized_dict_listed d Hw) as (l & Hl & Hb).
  set (e := (decorator, @nil value, @nil (string * value))).
  set (entered := set_meTalizers (λ l, (l ++ [e])%list) st1).
  assert (_meTalizers entered = [e]) as Hent by (unfold entered; simpl; by rewrite Hs1).
  destruct (import_simple_in_scope m Hc entered d nm l f)
    as (m' & s2 & d' & w' & Hrun & Hs2 & Hi2 & Hm & Hm' & Hh & Hw'); try done.
  { by rewrite Hent. }
  { by apply Hone. }
  { intros e' v He'. rewrite Hent in He'.
    apply list_elem_of_singleton in He' as ->. apply Ht. }
  rewrite Hent in Hw'. change (stacked [e] f) with (call decorator [f] []) in Hw'.
  assert (w' = w) as -> by congruence.
  set (s3 := set_meTalizers (λ _, []) s2).
  assert (MeTal_call decorator [] [] import_simple st1 = (inr m', s3)) as Hscope.
  { apply (scope_run decorator [] [] _ st1 (inr m') s2 [] e); [exact Hrun|].
    by rewrite Hs2, Hent. }
  assert (import_simple s3
          = (inr m, State (<[m := meTalized_dict (meTalized_dict d)]> (heap s3))
                      [] MeTalizingImport)) as Hplain.
  { by apply (import_simple_plain m Hc s3 (meTalized_dict d)). }
  rewrite meTalized_dict_idemp in Hplain.
  set (s4 := State (<[m := meTalized_dict d]> (heap s3)) [] MeTalizingImport) in *.
  exists s4. split; [|repeat split; try done; apply lookup_insert_eq].
  unfold example_py.
  erewrite bind_run; [|exact Hload].
  erewrite bind_run; [|exact Hscope].
  erewrite bind_run; [|rewrite (call_hello_run m' d' w s3 Hm' Hh); by rewrite Hr1].
  erewrite bind_run; [|exact Hplain].
  erewrite bind_run;
    [|rewrite (call_hello_run m (meTalized_dict d) f s4);
      [by rewrite Hr2 | apply lookup_insert_eq | done]].
  done.
Qed.

Lemma VStr_names_inj (l l' : list string) : VStr <$> l = VStr <$> l' → l = l'.
Proof.
  revert l'. induction l as [|a l IH]; intros [|b l'] E; try done.
  rewrite !fmap_cons in E. injection E as -> E. f_equal. by apply IH.
Qed.

(** The script on the example interpreter, with [decorator1] for its
    decorator: both calls return [None]. *)
Lemma example_py_runs_witness :
  ∃ st',
    @example_py extra_runtime (VFunc "decorator1" [])
      (State extra_heap [] OriginalImport) = (inr (VNone, VNone), st')
    ∧ _meTalizers st' = [].
Proof.
  destruct (@example_py_runs extra_runtime (VFunc "decorator1" [])
              (State extra_heap [] OriginalImport)
              (State extra_heap [] MeTalizingImport)
              1%positive simple_py "simple" (VFunc "HellO" [])
              (VFunc "decorator1.wrapper" [VFunc "HellO" []]) VNone VNone)
    as (st' & Hrun & Hs & _).
  - reflexivity.
  - intros h Hh. reflexivity.
  - reflexivity.
  - intros v Hv. vm_compute in Hv. discriminate.
  - vm_compute; reflexivity.
  - intros l Hl.
    assert (meTalized_dict simple_py !! "__meTalized__"
            = Some (VList (VStr <$> ["hello"]))) as Hl'
      by (vm_compute; reflexivity).
    rewrite Hl' in Hl. injection Hl as Hl.
    apply (VStr_names_inj ["hello"] l) in Hl. subst l. reflexivity.
  - vm_compute; reflexivity.
  - intros v. eexists. reflexivity.
  - reflexivity.
  - reflexivity.
  - reflexivity.
  - exists st'. split; [exact Hrun | exact Hs].
Defined.

Section script_blocks.
Context `{Runtime}.
Context (m : loc).
Hypothesis cached :
  ∀ h, is_Some (h !! m) → _builtin_import [VStr "simple"] [] h = (inr m, h).

(** One scope of [example2.py], entered with an empty stack. *)
Lemma scope_block dec s d nm l f w :
  builtins_import s = MeTalizingImport →
  heap s !! m = Some d →
  _meTalizers s = [] →
  meTalized_dict d !! "__name__" = Some (VStr nm) →
  meTalized_dict d !! "__meTalized__" = Some (VList (VStr <$> l)) →
  (∀ k, k ∈ l → is_Some (meTalized_dict d !! k)) →
  occurrences "hello" l = 1 →
  meTalized_dict d !! "hello" = Some f →
  (∀ v, ∃ w, call dec [v] [] = inr w) →
  call dec [f] [] = inr w →
  ∃ s',
    MeTal_call dec [] [] (simple ← import_simple; call_hello simple) s
    = (call w [VStr "Guido"] [], s')
    ∧ _meTalizers s' = []
    ∧ builtins_import s' = MeTalizingImport
    ∧ heap s' !! m = Some (meTalized_dict d).
Proof.
  intros Hi Ed Hs Hnm Hl Hb Ho Hf Ht Hw.
  set (e := (dec, @nil value, @nil (string * value))).
  set (entered := set_meTalizers (λ l, (l ++ [e])%list) s).
  assert (_meTalizers entered = [e]) as Hent
    by (unfold entered; simpl; by rewrite Hs).
  destruct (import_and_call_in_scope m cached entered d nm l f w)
    as (s2 & Hrun & Hs2 & Hi2 & Hm); try done.
  { by rewrite Hent. }
  { intros e' v He'. rewrite Hent in He'.
    apply list_elem_of_singleton in He' as ->. apply Ht. }
  { by rewrite Hent. }
  exists (set_meTalizers (λ _, []) s2). split; [|done].
  apply (scope_run dec [] [] _ s _ s2 [] e); [exact Hrun|].
  by rewrite Hs2, Hent.
Qed.

(** The two scopes of line 27, entered with an empty stack. *)
Lemma nested_block dec1 dec2 s d nm l f w2 w3 :
  builtins_import s = MeTalizingImport →
  heap s !! m = Some d →
  _meTalizers s = [] →
  meTalized_dict d !! "__name__" = Some (VStr nm) →
  meTalized_dict d !! "__meTalized__" = Some (VList (VStr <$> l)) →
  (∀ k, k ∈ l → is_Some (meTalized_dict d !! k)) →
  occurrences "hello" l = 1 →
  meTalized_dict d !! "hello" = Some f →
  (∀ v, ∃ w, call dec1 [v] [] = inr w) →
  (∀ v, ∃ w, call dec2 [v] [] = inr w) →
  call dec2 [f] [] = inr w2 →
  call dec1 [w2] [] = inr w3 →
  ∃ s',
    MeTal_call dec1 [] []
      (MeTal_call dec2 [] [] (simple ← import_simple; call_hello simple)) s
    = (call w3 [VStr "Guido"] [], s')
    ∧ _meTalizers s' = []
    ∧ builtins_import s' = MeTalizingImport
    ∧ heap s' !! m = Some (meTalized_dict d).
Proof.
  intros Hi Ed Hs Hnm Hl Hb Ho Hf Ht1 Ht2 Hw2 Hw3.
  set (e1 := (dec1, @nil value, @nil (string * value))).
  set (e2 := (dec2, @nil value, @nil (string * value))).
  set (st1 := set_meTalizers (λ l, (l ++ [e1])%list) s).
  set (inside := set_meTalizers (λ l, (l ++ [e2])%list) st1).
  assert (_meTalizers inside = [e1; e2]) as Hin
    by (unfold inside, st1; simpl; by rewrite Hs).
  destruct (import_and_call_in_scope m cached inside d nm l f w3)
    as (s2 & Hrun & Hs2 & Hi2 & Hm); try done.
  { by rewrite Hin. }
  { intros e' v He'. rewrite Hin in He'.
    apply elem_of_cons in He' as [->|He'];
      [apply Ht1 | apply list_elem_of_singleton in He' as ->; apply Ht2]. }
  { rewrite Hin.
    change (stacked [e1; e2] f)
      with (call dec2 [f] [] ≫= λ g, call dec1 [g] []).
    by rewrite Hw2. }
  exists (set_meTalizers (λ _, []) s2). split; [|done].
  apply (scope_run dec1 [] [] _ s _ (set_meTalizers (λ _, [e1]) s2) [] e1);
    [|done].
  apply (scope_run dec2 [] [] _ st1 _ s2 [e1] e2); [exact Hrun|].
  by rewrite Hs2, Hin.
Qed.
End script_blocks.

(** X12.  [example2.py] runs as its comments say.  Once [meTal] is loaded
    and with [simple] in the module cache, defining [hello] through one
    cased name [f], the call of line 19 calls [decorator1(f)], the call of
    line 24 calls [decorator2(f)], untouched by the first scope, and the
    call of line 29 calls [decorator1(decorator2(f))]; the script ends with
    an empty stack. *)
Theorem example2_py_runs `{Runtime} decorator1 decorator2 st st1 m d nm f
    w1 w2 w3 r1 r2 r3 :
  meTal_py st = (inr (), st1) →
  (∀ h, is_Some (h !! m) → _builtin_import [VStr "simple"] [] h = (inr m, h)) →
  heap st1 !! m = Some d →
  well_listed d →
  meTalized_dict d !! "__name__" = Some (VStr nm) →
  (∀ l, meTalized_dict d !! "__meTalized__" = Some (VList (VStr <$> l)) →
        occurrences "hello" l = 1) →
  meTalized_dict d !! "hello" = Some f →
  (∀ v, ∃ w, call decorator1 [v] [] = inr w) →
  (∀ v, ∃ w, call decorator2 [v] [] = inr w) →
  call decorator1 [f] [] = inr w1 →
  call decorator2 [f] [] = inr w2 →
  call decorator1 [w2] [] = inr w3 →
  call w1 [VStr "Guido"] [] = inr r1 →
  call w2 [VStr "Guido"] [] = inr r2 →
  call w3 [VStr "Guido"] [] = inr r3 →
  ∃ st',
    example2_py decorator1 decorator2 st = (inr (r1, r2, r3), st')
    ∧ _meTalizers st' = []
    ∧ builtins_import st' = MeTalizingImport
    ∧ heap st' !! m = Some (meTalized_dict d).
Proof.
  intros Hload Hc Ed Hw Hnm Hone Hf Ht1 Ht2 Hw1 Hw2 Hw3 Hr1 Hr2 Hr3.
  destruct (meTal_py_done st st1 Hload) as [Hi1 Hs1].
  destruct (meTalized_dict_listed d Hw) as (l & Hl & Hb).
  pose proof (Hone l Hl) as Ho.
  pose proof (meTalized_dict_idemp d) as HD.
  destruct (scope_block m Hc decorator1 st1 d nm l f w1)
    as (sa & Hrun1 & Hsa & Hia & Hma); try done.
  destruct (scope_block m Hc decorator2 sa (meTalized_dict d) nm l f w2)
    as (sb & Hrun2 & Hsb & Hib & Hmb); try done; try (by rewrite HD).
  rewrite HD in Hmb.
  destruct (nested_block m Hc decorator1 decorator2 sb (meTalized_dict d)
              nm l f w2 w3)
    as (sc & Hrun3 & Hsc & Hic & Hmc); try done; try (by rewrite HD).
  rewrite HD in Hmc.
  exists sc. split; [|done].
  unfold example2_py.
  erewrite bind_run; [|exact Hload].
  erewrite bind_run; [|rewrite Hrun1; by rewrite Hr1].
  erewrite bind_run; [|rewrite Hrun2; by rewrite Hr2].
  erewrite bind_run; [|rewrite Hrun3; by rewrite Hr3].
  done.
Qed.

(** The script on the example interpreter: the three calls return
    [None]. *)
Lemma example2_py_runs_witness :
  ∃ st',
    @example2_py extra_runtime (VFunc "decorator1" []) (VFunc "decorator2" [])
      (State extra_heap [] OriginalImport) = (inr (VNone, VNone, VNone), st')
    ∧ _meTalizers st' = [].
Proof.
  destruct (@example2_py_runs extra_runtime (VFunc "decorator1" [])
              (VFunc "decorator2" [])
              (State extra_heap [] OriginalImport)
              (State extra_heap [] MeTalizingImport)
              1%positive simple_py "simple" (VFunc "HellO" [])
              (VFunc "decorator1.wrapper" [VFunc "HellO" []])
              (VFunc "decorator2.wrapper" [VFunc "HellO" []])
              (VFunc "decorator1.wrapper"
                 [VFunc "decorator2.wrapper" [VFunc "HellO" []]])
              VNone VNone VNone)
    as (st' & Hrun & Hs & _).
  - reflexivity.
  - intros h Hh. reflexivity.
  - reflexivity.
  - intros v Hv. vm_compute in Hv. discriminate.
  - vm_compute; reflexivity.
  - intros l Hl.
    assert (meTalized_dict simple_py !! "__meTalized__"
            = Some (VList (VStr <$> ["hello"]))) as Hl'
      by (vm_compute; reflexivity).
    rewrite Hl' in Hl. injection Hl as Hl.
    apply (VStr_names_inj ["hello"] l) in Hl. subst l. reflexivity.
  - vm_compute; reflexivity.
  - intros v. eexists. reflexivity.
  - intros v. eexists. reflexivity.
  - reflexivity.
  - reflexivity.
  - reflexivity.
  - reflexivity.
  - reflexivity.
  - reflexivity.
  - exists st'. split; [exact Hrun | exact Hs].
Defined.

(** ** The renaming pass as a whole *)


